(** * fwsp-cacher: a Redis-backed cache wrapper (src/index.js)

    The module is a thin client of a Redis server.  Every data operation
    creates a client, selects a database, issues one or two commands and
    ends the client; results travel through promises that are settled from
    inside the client's callbacks.

    The development embeds the two classes of [src/index.js], [CacheDB] and
    [Cacher], as state-passing functions over a [world] that holds what the
    wrapper can observe of its surroundings: the server's key space, the
    set of live client connections, the error replies the server is going
    to give, and the log of everything that was sent. *)

From Stdlib Require Import ZArith List.
From Stdlib Require Import DecimalString.
From stdpp Require Import base option strings gmap.

Local Open Scope string_scope.
Local Open Scope Z_scope.

(** ** JavaScript values *)

(** The values that flow through the cache: JSON data, [undefined], and
    [Error] objects (the reasons of rejections). *)
#[warnings="-register-all"]
Inductive value : Type :=
| JUndefined
| JNull
| JBool (b : bool)
| JNum (n : Z)
| JStr (s : string)
| JArr (items : list value)
| JObj (fields : list (string * value))
| JError (message : string).

(** [x != null] is false exactly on [null] and [undefined]. *)
Definition nullish (v : value) : bool :=
  match v with
  | JUndefined | JNull => true
  | _ => false
  end.

(** What a statement or call leaves behind: a value, or a thrown exception. *)
Inductive completion (A : Type) : Type :=
| Return (a : A)
| Throw (e : value).
Arguments Return {A} a.
Arguments Throw {A} e.

(** ** Promises

    A promise is a cell that is settled at most once: [resolve] and
    [reject] on a settled promise do nothing. *)
Inductive promise (A : Type) : Type :=
| Pending
| Resolved (a : A)
| Rejected (reason : value).
Arguments Pending {A}.
Arguments Resolved {A} a.
Arguments Rejected {A} reason.

Definition resolve {A : Type} (a : A) (p : promise A) : promise A :=
  match p with
  | Pending => Resolved a
  | _ => p
  end.

Definition reject {A : Type} (reason : value) (p : promise A) : promise A :=
  match p with
  | Pending => Rejected reason
  | _ => p
  end.

(** ** The JSON built-in

    [JSON.parse] and [JSON.stringify] are the host's; the wrapper is
    verified against any implementation of them.  [JSON_parse s = None]
    stands for a [SyntaxError] being thrown. *)
Class JSON : Type := {
  JSON_parse : string -> option value;
  JSON_stringify : value -> string
}.

(** ** The Redis server and its clients *)

Definition conn : Type := nat.

Inductive command : Type :=
| SELECT (index : Z)
| GET (key : string)
| SETEX (key : string) (seconds : Z) (text : string)
| EXPIRE (key : string) (seconds : Z)
| DEL (key : string).

Inductive event : Type :=
| Connect (id : conn) (port : option Z) (host : option string)
| Command (id : conn) (cmd : command)
| End (id : conn)
| Fallback.

(** [store] maps a key to its text and its remaining seconds.  [faults]
    schedules the server's answers to the commands to come, one entry per
    command in the order they are sent: [Some msg] is an error reply (an
    unreachable server, a refused command), [None] a normal one; past the
    end of the list every command succeeds.  [trace] has the most recent
    event first. *)
Record world : Type := World {
  store : gmap string (string * Z);
  live : gset conn;
  next_conn : conn;
  faults : list (option string);
  trace : list event
}.

(** ** State passing *)

Definition M (A : Type) : Type := world -> A * world.

Definition ret {A : Type} (a : A) : M A := fun w => (a, w).

Definition bind {A B : Type} (m : M A) (k : A -> M B) : M B :=
  fun w => let (a, w') := m w in k a w'.

Notation "'let*' x ':=' m 'in' k" := (bind m (fun x => k))
  (at level 10, x pattern, m at level 100, k at level 200).

Definition log (e : event) : M unit := fun w =>
  (tt, World (store w) (live w) (next_conn w) (faults w) (e :: trace w)).

Definition next_fault : M (option string) := fun w =>
  (hd None (faults w),
   World (store w) (live w) (next_conn w) (tl (faults w)) (trace w)).

Definition get_store : M (gmap string (string * Z)) := fun w => (store w, w).

Definition put_store (s : gmap string (string * Z)) : M unit := fun w =>
  (tt, World s (live w) (next_conn w) (faults w) (trace w)).

(** [redis.createClient(port, host, null)]: a fresh connection. *)
Definition createClient (port : option Z) (host : option string) : M conn :=
  fun w =>
    let id := next_conn w in
    (id, World (store w) ({[ id ]} ∪ live w) (S id) (faults w)
               (Connect id port host :: trace w)).

(** [db.end(0)] *)
Definition client_end (id : conn) : M unit := fun w =>
  (tt, World (store w) (live w ∖ {[ id ]}) (next_conn w) (faults w)
             (End id :: trace w)).

(** One round trip: the command is written to the connection and the
    server's next scheduled answer comes back. *)
Definition send (id : conn) (cmd : command) : M (option string) :=
  let* _ := log (Command id cmd) in
  next_fault.

(** The arguments [(error, result)] of a node-style callback. *)
Inductive reply (R : Type) : Type :=
| Err (error : value)
| Ok (result : R).
Arguments Err {R} error.
Arguments Ok {R} result.

Definition client_select (id : conn) (index : Z) : M (reply unit) :=
  let* f := send id (SELECT index) in
  match f with
  | Some msg => ret (Err (JError msg))
  | None => ret (Ok tt)
  end.

(** GET: the stored text, or nil ([None], JavaScript's [null]). *)
Definition client_get (id : conn) (key : string) : M (reply (option string)) :=
  let* f := send id (GET key) in
  match f with
  | Some msg => ret (Err (JError msg))
  | None =>
      let* s := get_store in
      ret (Ok (fst <$> s !! key))
  end.

Definition client_setex (id : conn) (key : string) (seconds : Z)
    (text : string) : M (reply unit) :=
  let* f := send id (SETEX key seconds text) in
  match f with
  | Some msg => ret (Err (JError msg))
  | None =>
      let* s := get_store in
      let* _ := put_store (<[ key := (text, seconds) ]> s) in
      ret (Ok tt)
  end.

(** EXPIRE answers 1 when the key exists and 0 otherwise; a timeout that is
    not positive removes the key. *)
Definition client_expire (id : conn) (key : string) (seconds : Z)
    : M (reply Z) :=
  let* f := send id (EXPIRE key seconds) in
  match f with
  | Some msg => ret (Err (JError msg))
  | None =>
      let* s := get_store in
      match s !! key with
      | None => ret (Ok 0)
      | Some (text, _) =>
          let* _ := put_store (if seconds <=? 0 then delete key s
                               else <[ key := (text, seconds) ]> s) in
          ret (Ok 1)
      end
  end.

Definition client_del (id : conn) (key : string) : M (reply Z) :=
  let* f := send id (DEL key) in
  match f with
  | Some msg => ret (Err (JError msg))
  | None =>
      let* s := get_store in
      let* _ := put_store (delete key s) in
      ret (Ok (match s !! key with Some _ => 1 | None => 0 end))
  end.

(** ** class CacheDB *)

(** The object handed to [init]; any field may be missing. *)
Record options : Type := Options {
  opt_url : option string;
  opt_port : option Z;
  opt_db : option Z
}.

(** [this.config], after [Object.assign({db: 1}, config)]. *)
Record config_t : Type := Config {
  url : option string;
  port : option Z;
  db : Z
}.

(** The instance state of a [Cacher]; both properties are [undefined]
    ([None]) on a freshly constructed object. *)
Record Cacher : Type := MkCacher {
  config : option config_t;
  cachePrefix : option string
}.

Definition new_Cacher : Cacher := MkCacher None None.

Definition CacheDB_init (o : options) (this : Cacher) : Cacher :=
  MkCacher (Some (Config (opt_url o) (opt_port o) (default 1 (opt_db o))))
           (cachePrefix this).

(** Reading a property of [undefined] or [null]. *)
Definition TypeError (what : string) : value :=
  JError ("TypeError: Cannot read property " +:+ what).

(** [openDB]: the client is created first, then the database is selected;
    the promise resolves with the client or rejects with the select error.
    With [this.config] undefined the argument [this.config.port] throws
    before any client exists. *)
Definition openDB (this : Cacher) : M (completion (promise conn)) :=
  match config this with
  | None => ret (Throw (TypeError "'port' of undefined"))
  | Some cfg =>
      let* client := createClient (port cfg) (url cfg) in
      let* r := client_select client (db cfg) in
      match r with
      | Err err => ret (Return (reject err Pending))
      | Ok _ => ret (Return (resolve client Pending))
      end
  end.

(** [closeDB(db)] is [db.end(0)]; on [null] the property access throws. *)
Definition closeDB (db : option conn) : M (completion unit) :=
  match db with
  | Some id => let* _ := client_end id in ret (Return tt)
  | None => ret (Throw (TypeError "'end' of null"))
  end.

(** [setExpire] settles the promise it is given from the EXPIRE callback and
    then closes the connection. *)
Definition setExpire (db : conn) (hKeyLabel : string)
    (cacheDurationInSeconds : Z) (p : promise value) : M (promise value) :=
  let* r := client_expire db hKeyLabel cacheDurationInSeconds in
  let p' := match r with
            | Ok result => resolve (JNum result) p
            | Err error => reject error p
            end in
  let* _ := closeDB (Some db) in
  ret p'.

(** ** class Cacher extends CacheDB *)

Section Cacher.
Context {J : JSON}.

(** Modelled from the spec: [utils.safeJSONParse] belongs to the package
    [@flywheelsports/jsutils], which is not part of the sources.  It is
    [JSON.parse] inside a try/catch: a text that does not parse gives the
    absent marker [undefined] instead of an exception.  A nil reply reaches
    [JSON.parse] as the text [null]. *)
Definition safeJSONParse (result : option string) : value :=
  match JSON_parse (default "null" result) with
  | Some data => data
  | None => JUndefined
  end.

(** [if (result)] on a reply: nil and the empty text are falsy. *)
Definition truthy (result : option string) : bool :=
  match result with
  | Some (String _ _) => true
  | _ => false
  end.

Definition init (o : options) (this : Cacher) : Cacher :=
  let this := CacheDB_init o this in
  MkCacher (config this) (Some "cacher").

Definition setCachePrefix (name : string) (this : Cacher) : Cacher :=
  MkCacher (config this) (Some name).

(** The template literal [`${this.cachePrefix}:${key}`]. *)
Definition hKeyLabel (this : Cacher) (key : string) : string :=
  default "undefined" (cachePrefix this) +:+ ":" +:+ key.

Definition getData (this : Cacher) (key : string) : M (promise value) :=
  let* o := openDB this in
  match o with
  | Throw e => ret (reject e Pending)
  | Return (Resolved dbObj) =>
      let db := Some dbObj in
      let* r := client_get dbObj (hKeyLabel this key) in
      let p := match r with
               | Err error => reject error Pending
               | Ok result => resolve (safeJSONParse result) Pending
               end in
      let* _ := closeDB db in
      ret p
  | Return (Rejected reason) =>
      (* the catch handler runs while [db] is still null *)
      let db := None in
      let p := reject reason Pending in
      let* _ := closeDB db in
      ret p
  | Return Pending => ret Pending
  end.

Definition setData (this : Cacher) (key : string) (data : value)
    (cacheDurationInSeconds : Z) : M (promise value) :=
  let* o := openDB this in
  match o with
  | Throw e => ret (reject e Pending)
  | Return (Resolved dbObj) =>
      let db := Some dbObj in
      let* r := client_setex dbObj (hKeyLabel this key) cacheDurationInSeconds
                  (JSON_stringify data) in
      let p := match r with
               | Err error => reject error Pending
               | Ok _ => resolve JUndefined Pending
               end in
      let* _ := closeDB db in
      ret p
  | Return (Rejected reason) =>
      let db := None in
      let p := reject reason Pending in
      let* _ := closeDB db in
      ret p
  | Return Pending => ret Pending
  end.

(** [setTTL] has no rejection handler on [openDB()]: when the select fails
    nothing settles the promise. *)
Definition setTTL (this : Cacher) (key : string) (cacheDurationInSeconds : Z)
    : M (promise value) :=
  let* o := openDB this in
  match o with
  | Throw e => ret (reject e Pending)
  | Return (Resolved dbObj) =>
      let db := dbObj in
      let* r := client_get db (hKeyLabel this key) in
      match r with
      | Err error => ret (reject error Pending)
      | Ok result =>
          if truthy result then
            let p := resolve (safeJSONParse result) Pending in
            setExpire db (hKeyLabel this key) cacheDurationInSeconds p
          else
            let p := reject JUndefined Pending in
            let* _ := closeDB (Some db) in
            ret p
      end
  | Return _ => ret Pending
  end.

(** [deleteData] neither handles a rejected [openDB()] nor closes. *)
Definition deleteData (this : Cacher) (key : string) : M (promise value) :=
  let* o := openDB this in
  match o with
  | Throw e => ret (reject e Pending)
  | Return (Resolved db) =>
      let* r := client_del db (hKeyLabel this key) in
      match r with
      | Err error => ret (reject error Pending)
      | Ok _ => ret (resolve JUndefined Pending)
      end
  | Return _ => ret Pending
  end.

(** The caller's producer: it may read and write the key space, and the
    promise it returns ends up resolved, rejected or forever pending. *)
Definition producer : Type :=
  gmap string (string * Z) -> promise value * gmap string (string * Z).

Definition call (fallback : producer) : M (promise value) :=
  let* _ := log Fallback in
  let* s := get_store in
  let (p, s') := fallback s in
  let* _ := put_store s' in
  ret p.

(** [p.then(resolve).catch(reject)] on a fresh promise. *)
Definition settle_with (p : promise value) : promise value :=
  match p with
  | Resolved v => resolve v Pending
  | Rejected e => reject e Pending
  | Pending => Pending
  end.

Definition getDataWithFallback (this : Cacher) (key : string)
    (cacheDurationInSeconds : Z) (fallback : producer) : M (promise value) :=
  let* got := getData this key in
  let* chain :=
    match got with
    | Resolved res =>
        if negb (nullish res) then ret (Resolved res)
        else
          let* made := call fallback in
          match made with
          | Resolved res =>
              let* written := setData this key res cacheDurationInSeconds in
              match written with
              | Resolved _ => ret (Resolved res)
              | Rejected e => ret (Rejected e)
              | Pending => ret Pending
              end
          | Rejected e => ret (Rejected e)
          | Pending => ret Pending
          end
    | Rejected e => ret (Rejected e)
    | Pending => ret Pending
    end in
  ret (settle_with chain).

End Cacher.

(** ** A small JSON implementation

    Used to run the operations on concrete worlds.  It is exact on [null],
    the booleans and the integers in canonical decimal form, and it reads
    no other text; strings, arrays and objects are written without escape
    sequences. *)

Definition quote : string := String (Ascii.ascii_of_nat 34) EmptyString.

Fixpoint write_json (v : value) : string :=
  match v with
  | JUndefined => "undefined"
  | JNull => "null"
  | JBool true => "true"
  | JBool false => "false"
  | JNum n => NilZero.string_of_int (Z.to_int n)
  | JStr s => quote +:+ s +:+ quote
  | JArr items =>
      "[" +:+
      (fix elements (l : list value) : string :=
         match l with
         | [] => EmptyString
         | [x] => write_json x
         | x :: l' => write_json x +:+ "," +:+ elements l'
         end) items +:+ "]"
  | JObj fields =>
      "{" +:+
      (fix members (l : list (string * value)) : string :=
         match l with
         | [] => EmptyString
         | [(k, x)] => quote +:+ k +:+ quote +:+ ":" +:+ write_json x
         | (k, x) :: l' =>
             quote +:+ k +:+ quote +:+ ":" +:+ write_json x +:+ "," +:+
             members l'
         end) fields +:+ "}"
  | JError _ => "{}"
  end.

Definition read_json (s : string) : option value :=
  if String.eqb s "null" then Some JNull
  else if String.eqb s "true" then Some (JBool true)
  else if String.eqb s "false" then Some (JBool false)
  else match NilZero.int_of_string s with
       | Some i =>
           if String.eqb (NilZero.string_of_int (Z.to_int (Z.of_int i))) s
           then Some (JNum (Z.of_int i))
           else None
       | None => None
       end.

Definition small_JSON : JSON :=
  {| JSON_parse := read_json; JSON_stringify := write_json |}.

(** ** Observations on worlds *)

(** The server's answer to the [n]-th command from now on. *)
Definition scheduled (n : nat) (w : world) : option string :=
  nth n (faults w) None.

(** The key a command addresses, if it addresses one. *)
Definition command_key (c : command) : option string :=
  match c with
  | SELECT _ => None
  | GET k | SETEX k _ _ | EXPIRE k _ | DEL k => Some k
  end.

(** The keys sent to the server in a stretch of the trace. *)
Fixpoint keys_sent (t : list event) : list string :=
  match t with
  | [] => []
  | Command _ c :: t' =>
      match command_key c with
      | Some k => k :: keys_sent t'
      | None => keys_sent t'
      end
  | _ :: t' => keys_sent t'
  end.

(** Whether a stretch of the trace writes to the key space or runs the
    caller's producer. *)
Definition is_write (e : event) : bool :=
  match e with
  | Command _ (SETEX _ _ _) | Command _ (EXPIRE _ _) | Command _ (DEL _) => true
  | _ => false
  end.

Definition is_fallback (e : event) : bool :=
  match e with
  | Fallback => true
  | _ => false
  end.

(** A world with an empty key space in which the commands answer as
    scheduled. *)
Definition fresh_world (answers : list (option string)) : world :=
  World ∅ ∅ 0%nat answers [].

Definition localhost : options :=
  Options (Some "127.0.0.1") (Some 6379) (Some 1).

Definition localhost_config : config_t :=
  Config (Some "127.0.0.1") (Some 6379) 1.

(** An initialised instance with the default prefix. *)
Definition cacher : Cacher := init localhost new_Cacher.

(** A world whose key space holds [text] under [label] for 15 seconds. *)
Definition world_with (label text : string) (answers : list (option string))
    : world :=
  World {[ label := (text, 15) ]} ∅ 0%nat answers [].

(** A producer that resolves with 7 and leaves the key space alone. *)
Definition seven : producer := fun s => (Resolved (JNum 7), s).

(** The world right after [openDB]: one more live connection, the SELECT
    sent and its answer consumed. *)
Definition connected (cfg : config_t) (w : world) : world :=
  World (store w) ({[ next_conn w ]} ∪ live w) (S (next_conn w))
        (tl (faults w))
        (Command (next_conn w) (SELECT (db cfg))
           :: Connect (next_conn w) (port cfg) (url cfg) :: trace w).

(** The world after the one keyed command of an operation has been
    answered on the connection that [openDB] made: [s] is the key space it
    leaves, [closed] tells whether the connection was ended afterwards. *)
Definition served (cfg : config_t) (cmd : command)
    (s : gmap string (string * Z)) (closed : bool) (w : world) : world :=
  World s
        (if closed then ({[ next_conn w ]} ∪ live w) ∖ {[ next_conn w ]}
         else {[ next_conn w ]} ∪ live w)
        (S (next_conn w)) (tl (tl (faults w)))
        ((if closed then [End (next_conn w)] else []) ++
         Command (next_conn w) cmd :: trace (connected cfg w)).

(** An event that neither writes to the key space nor runs the producer. *)
Definition quiet (e : event) : bool := negb (is_write e || is_fallback e).

(** [w'] extends the trace of [w] by events among which every key sent is
    [label]; on an initialised instance whose SELECT succeeds at least one
    keyed command is among them. *)
Definition addresses (label : string) (this : Cacher) (w w' : world) : Prop :=
  exists evs, trace w' = (evs ++ trace w)%list /\
    Forall (eq label) (keys_sent evs) /\
    (is_Some (config this) -> scheduled 0 w = None -> keys_sent evs <> []).

(** The number of times the producer ran in a stretch of the trace. *)
Fixpoint fallback_calls (t : list event) : nat :=
  match t with
  | [] => 0%nat
  | Fallback :: t' => S (fallback_calls t')
  | _ :: t' => fallback_calls t'
  end.

(** The world right after the producer has run and left the key space
    [s]. *)
Definition produced (s : gmap string (string * Z)) (w : world) : world :=
  World s (live w) (next_conn w) (faults w) (Fallback :: trace w).

(** The key space after an EXPIRE that the server accepted. *)
Definition expired (label : string) (seconds : Z)
    (s : gmap string (string * Z)) : gmap string (string * Z) :=
  match s !! label with
  | Some (text, _) =>
      if seconds <=? 0 then delete label s else <[ label := (text, seconds) ]> s
  | None => s
  end.

(** Between [w] and [w'] exactly one connection was created, and no other
    connection was opened or ended. *)
Definition one_connection (w w' : world) : Prop :=
  next_conn w' = S (next_conn w) /\
  forall id : conn, id <> next_conn w -> id ∈ live w' <-> id ∈ live w.

(** [w'] extends the trace of [w], and the oldest new events are the
    connection to [port], [host] and the SELECT of [index] on it. *)
Definition opens_with (port : option Z) (host : option string) (index : Z)
    (w w' : world) : Prop :=
  exists evs, trace w' =
    (evs ++ Command (next_conn w) (SELECT index)
         :: Connect (next_conn w) port host :: trace w)%list.

(** ** The earlier module (src/unnamed/part_001)

    An earlier version of the module, with the same [CacheDB] base class
    (plus [hash]) and a [Cacher] that names its keys by the MD5 digest of
    the logical key, parses replies with a bare [JSON.parse], and offers
    [refreshTTL] and [getDataWithFetchCallback]. *)

Module AppCache.
Section AppCache.
Context {J : JSON}.

(** [crypto.createHash('md5').update(key).digest('hex')] is the host's. *)
Variable hash : string -> string.

(** What [JSON.parse] throws on a text it cannot read. *)
Definition SyntaxError : value := JError "SyntaxError: Unexpected token".

(** [JSON.parse(result)] on a reply; a nil reply is read as the text
    [null]. *)
Definition parse (result : option string) : completion value :=
  match JSON_parse (default "null" result) with
  | Some data => Return data
  | None => Throw SyntaxError
  end.

Definition init (o : options) (this : Cacher) : Cacher :=
  CacheDB_init o this.

(** The template literal [`appcache:${this.hash(key)}`]. *)
Definition hKeyLabel (key : string) : string := "appcache:" +:+ hash key.

(** An operation ends with its promise in some state ([Return]), or with an
    exception that escaped from a client callback before the promise was
    settled ([Throw]); nothing catches it and the promise stays pending. *)
Definition getData (this : Cacher) (key : string)
    : M (completion (promise value)) :=
  let* o := openDB this in
  match o with
  | Throw e => ret (Return (reject e Pending))
  | Return (Resolved dbObj) =>
      let db := Some dbObj in
      let* r := client_get dbObj (hKeyLabel key) in
      match r with
      | Err error =>
          let p := reject error Pending in
          let* _ := closeDB db in
          ret (Return p)
      | Ok result =>
          match parse result with
          | Throw e => ret (Throw e)
          | Return data =>
              let p := resolve data Pending in
              let* _ := closeDB db in
              ret (Return p)
          end
      end
  | Return (Rejected reason) =>
      let db := None in
      let p := reject reason Pending in
      let* _ := closeDB db in
      ret (Return p)
  | Return Pending => ret (Return Pending)
  end.

(** [cacheDurationInSeconds] may be left out ([None]); it is then 0. *)
Definition setData (this : Cacher) (key : string) (data : value)
    (cacheDurationInSeconds : option Z) : M (promise value) :=
  let cacheDurationInSeconds := default 0 cacheDurationInSeconds in
  let* o := openDB this in
  match o with
  | Throw e => ret (reject e Pending)
  | Return (Resolved dbObj) =>
      let db := Some dbObj in
      let* r := client_setex dbObj (hKeyLabel key) cacheDurationInSeconds
                  (JSON_stringify data) in
      let p := match r with
               | Err error => reject error Pending
               | Ok _ => resolve JUndefined Pending
               end in
      let* _ := closeDB db in
      ret p
  | Return (Rejected reason) =>
      let db := None in
      let p := reject reason Pending in
      let* _ := closeDB db in
      ret p
  | Return Pending => ret Pending
  end.

Definition refreshTTL (this : Cacher) (key : string)
    (cacheDurationInSeconds : Z) : M (completion (promise value)) :=
  let* o := openDB this in
  match o with
  | Throw e => ret (Return (reject e Pending))
  | Return (Resolved dbObj) =>
      let db := dbObj in
      let* r := client_get db (hKeyLabel key) in
      match r with
      | Err error => ret (Return (reject error Pending))
      | Ok result =>
          if truthy result then
            match parse result with
            | Throw e => ret (Throw e)
            | Return data =>
                let p := resolve data Pending in
                let* p' := setExpire db (hKeyLabel key)
                             cacheDurationInSeconds p in
                ret (Return p')
            end
          else
            let p := reject JUndefined Pending in
            let* _ := closeDB (Some db) in
            ret (Return p)
      end
  | Return _ => ret (Return Pending)
  end.

(** [err !== null] *)
Definition is_null (v : value) : bool :=
  match v with
  | JNull => true
  | _ => false
  end.

Definition getDataWithFetchCallback (this : Cacher) (key : string)
    (cacheDurationInSeconds : option Z) (fetchCallback : producer)
    : M (completion (promise value)) :=
  let* got := getData this key in
  match got with
  | Throw e => ret (Throw e)
  | Return (Resolved cacheData) => ret (Return (resolve cacheData Pending))
  | Return (Rejected err) =>
      if negb (is_null err) then ret (Return (reject err Pending))
      else
        let* made := call fetchCallback in
        match made with
        | Resolved res =>
            let* written := setData this key res cacheDurationInSeconds in
            match written with
            | Resolved _ => ret (Return (resolve res Pending))
            | Rejected err => ret (Return (reject err Pending))
            | Pending => ret (Return Pending)
            end
        | Rejected err => ret (Return (reject err Pending))
        | Pending => ret (Return Pending)
        end
  | Return Pending => ret (Return Pending)
  end.

End AppCache.
End AppCache.

(** A stand-in for the digest in concrete runs: it only has to be a
    function of the key. *)
Definition plain_digest (key : string) : string := key.

(** * Properties *)

Section Properties.
Context {J : JSON}.

Implicit Types (this : Cacher) (key : string) (w : world).

(** ** Promises settle once *)

Lemma resolve_settled {A} (a : A) (p : promise A) :
  p <> Pending -> resolve a p = p.
Proof. destruct p; [congruence | reflexivity | reflexivity]. Qed.

Lemma reject_settled {A} (e : value) (p : promise A) :
  p <> Pending -> reject e p = p.
Proof. destruct p; [congruence | reflexivity | reflexivity]. Qed.

(** ** Running the operations *)

Lemma scheduled_0 w : scheduled 0 w = hd None (faults w).
Proof. unfold scheduled. destruct (faults w); reflexivity. Qed.

Lemma scheduled_1 w : scheduled 1 w = hd None (tl (faults w)).
Proof. unfold scheduled. destruct (faults w) as [|? [|? ?]]; reflexivity. Qed.

Lemma scheduled_2 w : scheduled 2 w = hd None (tl (tl (faults w))).
Proof.
  unfold scheduled. destruct (faults w) as [|? [|? [|? ?]]]; reflexivity.
Qed.

Lemma openDB_uninitialised this w :
  config this = None ->
  openDB this w = (Throw (TypeError "'port' of undefined"), w).
Proof. intros H. unfold openDB. rewrite H. reflexivity. Qed.

Lemma openDB_initialised this cfg w :
  config this = Some cfg ->
  openDB this w =
    (Return (match scheduled 0 w with
             | Some msg => Rejected (JError msg)
             | None => Resolved (next_conn w)
             end),
     connected cfg w).
Proof.
  intros H. unfold openDB. rewrite H, scheduled_0.
  unfold bind, createClient, client_select, send, bind, log, next_fault.
  cbn [faults]. destruct (hd None (faults w)); reflexivity.
Qed.

Ltac step_client :=
  unfold client_get, client_setex, client_del, send, bind, log, next_fault,
    get_store, put_store, closeDB, client_end, bind, ret;
  cbn [faults connected store live trace next_conn].

Lemma getData_run this cfg key w :
  config this = Some cfg ->
  getData this key w =
    match scheduled 0 w with
    | Some msg => (Rejected (JError msg), connected cfg w)
    | None =>
        (match scheduled 1 w with
         | Some msg => Rejected (JError msg)
         | None =>
             Resolved (safeJSONParse (fst <$> store w !! hKeyLabel this key))
         end,
         served cfg (GET (hKeyLabel this key)) (store w) true w)
    end.
Proof.
  intros H. unfold getData, bind. rewrite (openDB_initialised _ _ _ H).
  destruct (scheduled 0 w) as [msg|]; [reflexivity|].
  rewrite scheduled_1. step_client.
  destruct (hd None (tl (faults w))); reflexivity.
Qed.

Lemma setData_run this cfg key data seconds w :
  config this = Some cfg ->
  setData this key data seconds w =
    match scheduled 0 w with
    | Some msg => (Rejected (JError msg), connected cfg w)
    | None =>
        let cmd := SETEX (hKeyLabel this key) seconds (JSON_stringify data) in
        match scheduled 1 w with
        | Some msg => (Rejected (JError msg), served cfg cmd (store w) true w)
        | None =>
            (Resolved JUndefined,
             served cfg cmd
               (<[ hKeyLabel this key := (JSON_stringify data, seconds) ]>
                  (store w)) true w)
        end
    end.
Proof.
  intros H. unfold setData, bind. rewrite (openDB_initialised _ _ _ H).
  destruct (scheduled 0 w) as [msg|]; [reflexivity|].
  rewrite scheduled_1. step_client.
  destruct (hd None (tl (faults w))); reflexivity.
Qed.

Lemma deleteData_run this cfg key w :
  config this = Some cfg ->
  deleteData this key w =
    match scheduled 0 w with
    | Some msg => (Pending, connected cfg w)
    | None =>
        let cmd := DEL (hKeyLabel this key) in
        match scheduled 1 w with
        | Some msg => (Rejected (JError msg), served cfg cmd (store w) false w)
        | None =>
            (Resolved JUndefined,
             served cfg cmd (delete (hKeyLabel this key) (store w)) false w)
        end
    end.
Proof.
  intros H. unfold deleteData, bind. rewrite (openDB_initialised _ _ _ H).
  destruct (scheduled 0 w) as [msg|]; [reflexivity|].
  rewrite scheduled_1. step_client.
  destruct (hd None (tl (faults w))); reflexivity.
Qed.

Lemma setTTL_run this cfg key seconds w :
  config this = Some cfg ->
  setTTL this key seconds w =
    match scheduled 0 w with
    | Some msg => (Pending, connected cfg w)
    | None =>
        let cmd := GET (hKeyLabel this key) in
        match scheduled 1 w with
        | Some msg => (Rejected (JError msg), served cfg cmd (store w) false w)
        | None =>
            let result := fst <$> store w !! hKeyLabel this key in
            if truthy result then
              setExpire (next_conn w) (hKeyLabel this key) seconds
                (Resolved (safeJSONParse result))
                (served cfg cmd (store w) false w)
            else (Rejected JUndefined, served cfg cmd (store w) true w)
        end
    end.
Proof.
  intros H. unfold setTTL, bind. rewrite (openDB_initialised _ _ _ H).
  destruct (scheduled 0 w) as [msg|]; [reflexivity|].
  rewrite scheduled_1. step_client.
  destruct (hd None (tl (faults w))); [reflexivity|].
  cbn zeta. destruct (truthy _); reflexivity.
Qed.

(** Once its promise is settled, [setExpire] cannot change it. *)
Lemma setExpire_keeps (id : conn) (label : string) (seconds : Z)
    (p : promise value) w :
  p <> Pending -> fst (setExpire id label seconds p w) = p.
Proof.
  intros Hp. unfold setExpire, bind.
  destruct (client_expire id label seconds w) as [[e | n] w1]; cbn;
    [apply reject_settled | apply resolve_settled]; exact Hp.
Qed.

(** A rejection of [getData] on an initialised instance is an error reply
    of the server, to the SELECT or to the GET. *)
Lemma getData_rejects_on_fault this cfg key w e :
  config this = Some cfg ->
  fst (getData this key w) = Rejected e ->
  exists msg, e = JError msg /\
    (scheduled 0 w = Some msg \/
     (scheduled 0 w = None /\ scheduled 1 w = Some msg)).
Proof.
  intros H. rewrite (getData_run _ _ _ _ H).
  destruct (scheduled 0 w) as [m0|]; cbn.
  - intros [= <-]. eauto.
  - destruct (scheduled 1 w) as [m1|]; cbn; [|discriminate].
    intros [= <-]. eauto.
Qed.

(** ** Configuration *)

(** C9: [init] sets the prefix back to the literal cacher, so a prefix
    chosen with [setCachePrefix] before [init] is discarded; after any
    [init] the keys are built from cacher. *)
Theorem init_resets_cachePrefix (o : options) (p : string) this key :
  cachePrefix (init o (setCachePrefix p this)) = Some "cacher" /\
  cachePrefix (init o this) = Some "cacher" /\
  hKeyLabel (init o (setCachePrefix p this)) key = "cacher:" +:+ key.
Proof. repeat split. Qed.

(** ** getData *)

(** C4: a key that is not in the store makes [getData] resolve with [null];
    a rejection of [getData] is always an error reply of the server (to
    SELECT or to GET), so a miss travels as a payload and a failure as an
    error. *)
Theorem getData_miss_resolves_null this cfg key w :
  config this = Some cfg ->
  (JSON_parse "null" = Some JNull ->
   store w !! hKeyLabel this key = None ->
   scheduled 0 w = None -> scheduled 1 w = None ->
   fst (getData this key w) = Resolved JNull) /\
  (forall e, fst (getData this key w) = Rejected e ->
     exists msg, e = JError msg /\
       (scheduled 0 w = Some msg \/
        (scheduled 0 w = None /\ scheduled 1 w = Some msg))).
Proof.
  intros H. split.
  - intros Hnull Hkey H0 H1. rewrite (getData_run _ _ _ _ H), H0, H1, Hkey.
    cbn. unfold safeJSONParse. cbn. rewrite Hnull. reflexivity.
  - intros e. apply getData_rejects_on_fault with (cfg := cfg). exact H.
Qed.

(** C3: a stored text that [JSON.parse] refuses makes [getData] resolve
    with the absent marker [undefined]; whenever [getData] rejects for such
    a key the reason is an error reply of the server, never a parse
    error. *)
Theorem getData_malformed_resolves_absent this cfg key text seconds w :
  config this = Some cfg ->
  store w !! hKeyLabel this key = Some (text, seconds) ->
  JSON_parse text = None ->
  (scheduled 0 w = None -> scheduled 1 w = None ->
   fst (getData this key w) = Resolved JUndefined /\
   nullish JUndefined = true) /\
  (forall e, fst (getData this key w) = Rejected e ->
     exists msg, e = JError msg /\
       (scheduled 0 w = Some msg \/
        (scheduled 0 w = None /\ scheduled 1 w = Some msg))).
Proof.
  intros H Hkey Hbad. split.
  - intros H0 H1. rewrite (getData_run _ _ _ _ H), H0, H1, Hkey.
    cbn. unfold safeJSONParse. cbn. rewrite Hbad. split; reflexivity.
  - intros e. apply getData_rejects_on_fault with (cfg := cfg). exact H.
Qed.

(** ** setTTL *)

(** C5: on a key that is not in the store [setTTL] rejects with no reason
    ([undefined]); an error reply to the GET rejects with that error, which
    is a different reason. *)
Theorem setTTL_missing_key_rejects_bare this cfg key seconds w :
  config this = Some cfg ->
  store w !! hKeyLabel this key = None ->
  scheduled 0 w = None ->
  (scheduled 1 w = None ->
   fst (setTTL this key seconds w) = Rejected JUndefined) /\
  (forall msg, scheduled 1 w = Some msg ->
   fst (setTTL this key seconds w) = Rejected (JError msg) /\
   JError msg <> JUndefined).
Proof.
  intros H Hkey H0. split.
  - intros H1. rewrite (setTTL_run _ _ _ _ _ H), H0, H1, Hkey. reflexivity.
  - intros msg H1. rewrite (setTTL_run _ _ _ _ _ H), H0, H1.
    split; [reflexivity | discriminate].
Qed.

(** C10: on a key that holds a text, [setTTL] resolves with the parsed text
    whatever the server answers to the EXPIRE that follows: the promise is
    resolved before [setExpire] runs, and the later [reject] of the EXPIRE
    callback finds it settled. *)
Theorem setTTL_hit_resolves_before_expire this cfg key text ttl0 seconds w :
  config this = Some cfg ->
  store w !! hKeyLabel this key = Some (text, ttl0) ->
  text <> EmptyString ->
  scheduled 0 w = None -> scheduled 1 w = None ->
  fst (setTTL this key seconds w) = Resolved (safeJSONParse (Some text)) /\
  (forall msg, scheduled 2 w = Some msg ->
     fst (setTTL this key seconds w) <> Rejected (JError msg)).
Proof.
  intros H Hkey Htext H0 H1.
  assert (Hrun : fst (setTTL this key seconds w)
                 = Resolved (safeJSONParse (Some text))).
  { rewrite (setTTL_run _ _ _ _ _ H), H0, H1, Hkey. cbn.
    destruct text as [|a text']; [congruence|].
    apply setExpire_keeps. discriminate. }
  split; [exact Hrun|]. intros msg _. rewrite Hrun. discriminate.
Qed.

(** ** The keys on the wire *)

Lemma setExpire_trace (id : conn) (label : string) (seconds : Z)
    (p : promise value) w :
  trace (snd (setExpire id label seconds p w))
  = End id :: Command id (EXPIRE label seconds) :: trace w.
Proof.
  unfold setExpire, client_expire, send, bind, log, next_fault, get_store,
    put_store, closeDB, client_end, bind, ret.
  cbn [faults store live trace next_conn].
  destruct (hd None (faults w)); [reflexivity|].
  cbn [store]. destruct (store w !! label) as [[text ttl0]|]; reflexivity.
Qed.

Ltac extend_by evs :=
  exists evs; split; [reflexivity | split; [repeat constructor |]];
  try (intros _ ?; congruence); try (intros [? ?] ?; congruence);
  try (intros _ _; cbn; discriminate).

Lemma uninitialised_rejects this key data seconds w :
  config this = None ->
  snd (getData this key w) = w /\ snd (setData this key data seconds w) = w /\
  snd (setTTL this key seconds w) = w /\ snd (deleteData this key w) = w.
Proof.
  intros H. unfold getData, setData, setTTL, deleteData, bind.
  rewrite (openDB_uninitialised _ _ H). repeat split.
Qed.

Lemma getData_addresses this key w :
  addresses (hKeyLabel this key) this w (snd (getData this key w)).
Proof.
  destruct (config this) as [cfg|] eqn:H.
  - rewrite (getData_run _ _ _ _ H).
    destruct (scheduled 0 w) as [m0|] eqn:H0.
    + extend_by [Command (next_conn w) (SELECT (db cfg));
                 Connect (next_conn w) (port cfg) (url cfg)].
    + extend_by [End (next_conn w);
                 Command (next_conn w) (GET (hKeyLabel this key));
                 Command (next_conn w) (SELECT (db cfg));
                 Connect (next_conn w) (port cfg) (url cfg)].
  - destruct (uninitialised_rejects this key JNull 0 w H) as (-> & _).
    extend_by (@nil event).
Qed.

Lemma setData_addresses this key data seconds w :
  addresses (hKeyLabel this key) this w
    (snd (setData this key data seconds w)).
Proof.
  destruct (config this) as [cfg|] eqn:H.
  - rewrite (setData_run _ _ _ _ _ _ H).
    destruct (scheduled 0 w) as [m0|] eqn:H0.
    + extend_by [Command (next_conn w) (SELECT (db cfg));
                 Connect (next_conn w) (port cfg) (url cfg)].
    + cbn zeta. destruct (scheduled 1 w);
      extend_by [End (next_conn w);
                 Command (next_conn w)
                   (SETEX (hKeyLabel this key) seconds (JSON_stringify data));
                 Command (next_conn w) (SELECT (db cfg));
                 Connect (next_conn w) (port cfg) (url cfg)].
  - destruct (uninitialised_rejects this key data seconds w H) as (_ & -> & _).
    extend_by (@nil event).
Qed.

Lemma deleteData_addresses this key w :
  addresses (hKeyLabel this key) this w (snd (deleteData this key w)).
Proof.
  destruct (config this) as [cfg|] eqn:H.
  - rewrite (deleteData_run _ _ _ _ H).
    destruct (scheduled 0 w) as [m0|] eqn:H0.
    + extend_by [Command (next_conn w) (SELECT (db cfg));
                 Connect (next_conn w) (port cfg) (url cfg)].
    + cbn zeta. destruct (scheduled 1 w);
      extend_by [Command (next_conn w) (DEL (hKeyLabel this key));
                 Command (next_conn w) (SELECT (db cfg));
                 Connect (next_conn w) (port cfg) (url cfg)].
  - destruct (uninitialised_rejects this key JNull 0 w H) as (_ & _ & _ & ->).
    extend_by (@nil event).
Qed.

Lemma setTTL_addresses this key seconds w :
  addresses (hKeyLabel this key) this w (snd (setTTL this key seconds w)).
Proof.
  destruct (config this) as [cfg|] eqn:H.
  - rewrite (setTTL_run _ _ _ _ _ H).
    destruct (scheduled 0 w) as [m0|] eqn:H0.
    + extend_by [Command (next_conn w) (SELECT (db cfg));
                 Connect (next_conn w) (port cfg) (url cfg)].
    + cbn zeta. destruct (scheduled 1 w).
      * extend_by [Command (next_conn w) (GET (hKeyLabel this key));
                   Command (next_conn w) (SELECT (db cfg));
                   Connect (next_conn w) (port cfg) (url cfg)].
      * destruct (truthy _).
        -- unfold addresses. rewrite setExpire_trace.
           extend_by [End (next_conn w);
                      Command (next_conn w)
                        (EXPIRE (hKeyLabel this key) seconds);
                      Command (next_conn w) (GET (hKeyLabel this key));
                      Command (next_conn w) (SELECT (db cfg));
                      Connect (next_conn w) (port cfg) (url cfg)].
        -- extend_by [End (next_conn w);
                      Command (next_conn w) (GET (hKeyLabel this key));
                      Command (next_conn w) (SELECT (db cfg));
                      Connect (next_conn w) (port cfg) (url cfg)].
  - destruct (uninitialised_rejects this key JNull seconds w H)
      as (_ & _ & -> & _).
    extend_by (@nil event).
Qed.

(** C8: the prefix is the literal cacher after [init] and the given name
    after [setCachePrefix]; with prefix [prefix], every key that [getData],
    [setData], [setTTL] and [deleteData] send to the server for the logical
    key [key] is the text [prefix], a colon, [key], and each of them sends
    it once the connection is selected. *)
Theorem operations_address_prefixed_key this prefix key data seconds w :
  cachePrefix this = Some prefix ->
  let label := prefix +:+ ":" +:+ key in
  (forall o c, cachePrefix (init o c) = Some "cacher") /\
  (forall name c, cachePrefix (setCachePrefix name c) = Some name) /\
  addresses label this w (snd (getData this key w)) /\
  addresses label this w (snd (setData this key data seconds w)) /\
  addresses label this w (snd (setTTL this key seconds w)) /\
  addresses label this w (snd (deleteData this key w)).
Proof.
  intros Hp label.
  assert (Hl : label = hKeyLabel this key).
  { unfold label, hKeyLabel. rewrite Hp. reflexivity. }
  rewrite Hl. repeat split.
  - apply getData_addresses.
  - apply setData_addresses.
  - apply setTTL_addresses.
  - apply deleteData_addresses.
Qed.

(** ** getDataWithFallback *)

(** [getData] leaves the key space as it is, and logs neither a write nor a
    call of the producer. *)
Lemma getData_reads_only this key w :
  store (snd (getData this key w)) = store w /\
  exists evs, trace (snd (getData this key w)) = (evs ++ trace w)%list /\
    forallb quiet evs = true.
Proof.
  destruct (config this) as [cfg|] eqn:H.
  - rewrite (getData_run _ _ _ _ H). destruct (scheduled 0 w); cbn.
    + split; [reflexivity|].
      exists [Command (next_conn w) (SELECT (db cfg));
              Connect (next_conn w) (port cfg) (url cfg)]. split; reflexivity.
    + split; [reflexivity|].
      exists [End (next_conn w);
              Command (next_conn w) (GET (hKeyLabel this key));
              Command (next_conn w) (SELECT (db cfg));
              Connect (next_conn w) (port cfg) (url cfg)]. split; reflexivity.
  - destruct (uninitialised_rejects this key JNull 0 w H) as (-> & _).
    split; [reflexivity|]. exists []. split; reflexivity.
Qed.

(** C6: when [getData] resolves with a value that is not [null] or
    [undefined], [getDataWithFallback] resolves with that value and leaves
    the world where [getData] left it: the key space is untouched and the
    trace has no write and no call of the producer. *)
Theorem getDataWithFallback_hit this key seconds (fallback : producer)
    w v w1 :
  getData this key w = (Resolved v, w1) ->
  nullish v = false ->
  getDataWithFallback this key seconds fallback w = (Resolved v, w1) /\
  store w1 = store w /\
  exists evs, trace w1 = (evs ++ trace w)%list /\ forallb quiet evs = true.
Proof.
  intros Hget Hv. split.
  - unfold getDataWithFallback, bind. rewrite Hget, Hv. reflexivity.
  - pose proof (getData_reads_only this key w) as Hro.
    rewrite Hget in Hro. exact Hro.
Qed.

(** C7: when [getData] rejects, [getDataWithFallback] rejects with the same
    reason and leaves the world where [getData] left it, so the producer
    was not called. *)
Theorem getDataWithFallback_store_error this key seconds
    (fallback : producer) w e w1 :
  getData this key w = (Rejected e, w1) ->
  getDataWithFallback this key seconds fallback w = (Rejected e, w1) /\
  exists evs, trace w1 = (evs ++ trace w)%list /\ forallb quiet evs = true.
Proof.
  intros Hget. split.
  - unfold getDataWithFallback, bind. rewrite Hget. reflexivity.
  - pose proof (getData_reads_only this key w) as [_ Hro].
    rewrite Hget in Hro. exact Hro.
Qed.

(** C1, as the code has it: when [getData] resolves with an absent value
    and the producer resolves with [r], the outcome of
    [getDataWithFallback] follows the cache write: it resolves with [r]
    when [setData] resolves, and rejects with the write's error when
    [setData] rejects. *)
Theorem getDataWithFallback_miss_follows_write this key seconds
    (fallback : producer) w v w1 r :
  getData this key w = (Resolved v, w1) ->
  nullish v = true ->
  fst (fallback (store w1)) = Resolved r ->
  let written := fst (setData this key r seconds (snd (call fallback w1))) in
  (forall u, written = Resolved u ->
     fst (getDataWithFallback this key seconds fallback w) = Resolved r) /\
  (forall e, written = Rejected e ->
     fst (getDataWithFallback this key seconds fallback w) = Rejected e).
Proof.
  intros Hget Hv Hfb written.
  assert (Hcall : fst (call fallback w1) = Resolved r).
  { unfold call, bind, log, get_store, put_store, ret. cbn [store].
    destruct (fallback (store w1)) as [p s']. exact Hfb. }
  assert (Hrun : fst (getDataWithFallback this key seconds fallback w)
                 = settle_with match written with
                               | Resolved _ => Resolved r
                               | Rejected e => Rejected e
                               | Pending => Pending
                               end).
  { unfold getDataWithFallback, bind. rewrite Hget, Hv. cbn [negb].
    unfold written.
    destruct (call fallback w1) as [made w2]. cbn [fst snd] in *.
    rewrite Hcall.
    destruct (setData this key r seconds w2) as [[| u | e] w3]; reflexivity. }
  split.
  - intros u Hw. rewrite Hrun, Hw. reflexivity.
  - intros e Hw. rewrite Hrun, Hw. reflexivity.
Qed.

(** ** Connections *)

Lemma ended_not_live (id : conn) (l : gset conn) : id ∉ ({[ id ]} ∪ l) ∖ {[ id ]}.
Proof.
  intros [_ Hid]%elem_of_difference. apply Hid, elem_of_singleton.
  reflexivity.
Qed.

Lemma created_live (id : conn) (l : gset conn) : id ∈ {[ id ]} ∪ l.
Proof. apply elem_of_union_l, elem_of_singleton. reflexivity. Qed.

(** The sibling operations end their connection once the keyed command has
    been answered. *)
Lemma getData_closes this cfg key w :
  config this = Some cfg -> scheduled 0 w = None ->
  next_conn w ∉ live (snd (getData this key w)).
Proof.
  intros Hcfg Hsel. rewrite (getData_run _ _ _ _ Hcfg), Hsel.
  apply ended_not_live.
Qed.

Lemma setData_closes this cfg key data seconds w :
  config this = Some cfg -> scheduled 0 w = None ->
  next_conn w ∉ live (snd (setData this key data seconds w)).
Proof.
  intros Hcfg Hsel. rewrite (setData_run _ _ _ _ _ _ Hcfg), Hsel. cbn zeta.
  destruct (scheduled 1 w); apply ended_not_live.
Qed.

(** When the SELECT fails, the rejection handler of [getData] calls
    [closeDB] on a [db] that is still null, and the connection that
    [openDB] created stays live. *)
Lemma getData_select_error_leaks this cfg key w msg :
  config this = Some cfg -> scheduled 0 w = Some msg ->
  fst (getData this key w) = Rejected (JError msg) /\
  next_conn w ∈ live (snd (getData this key w)).
Proof.
  intros Hcfg Hsel. rewrite (getData_run _ _ _ _ Hcfg), Hsel.
  split; [reflexivity | apply created_live].
Qed.

(** C2, on the code: [deleteData] never ends the connection it opened;
    whatever the server answers, the connection is still live when the
    call is over. *)
Theorem deleteData_leaves_connection_open (o : options) this key w :
  next_conn w ∈ live (snd (deleteData (init o this) key w)).
Proof.
  rewrite (deleteData_run (init o this) _ key w eq_refl).
  destruct (scheduled 0 w); [apply created_live|].
  cbn zeta. destruct (scheduled 1 w); apply created_live.
Qed.

End Properties.

(** * Concrete runs *)

Lemma init_resets_cachePrefix_run :
  cachePrefix (init localhost (setCachePrefix "myAppName" new_Cacher))
  = Some "cacher".
Proof. reflexivity. Qed.

Lemma getData_miss_resolves_null_witness :
  store (fresh_world []) !! "cacher:user:1" = None /\
  fst (getData (J := small_JSON) cacher "user:1" (fresh_world []))
  = Resolved JNull.
Proof.
  split; [reflexivity|].
  apply (proj1 (getData_miss_resolves_null (J := small_JSON) cacher
                  localhost_config "user:1" (fresh_world []) eq_refl));
    reflexivity.
Defined.

Lemma getData_malformed_resolves_absent_witness :
  JSON_parse (JSON := small_JSON) "{oops" = None /\
  fst (getData (J := small_JSON) cacher "user:1"
         (world_with "cacher:user:1" "{oops" []))
  = Resolved JUndefined.
Proof.
  split; [reflexivity|].
  apply (proj1 (getData_malformed_resolves_absent (J := small_JSON) cacher
                  localhost_config "user:1" "{oops" 15
                  (world_with "cacher:user:1" "{oops" [])
                  eq_refl eq_refl eq_refl));
    reflexivity.
Defined.

Lemma setTTL_missing_key_rejects_bare_witness :
  fst (setTTL (J := small_JSON) cacher "user:1" 30 (fresh_world []))
  = Rejected JUndefined /\
  fst (setTTL (J := small_JSON) cacher "user:1" 30
         (fresh_world [None; Some "ERR wrong type"]))
  = Rejected (JError "ERR wrong type").
Proof.
  split.
  - apply (proj1 (setTTL_missing_key_rejects_bare (J := small_JSON) cacher
                    localhost_config "user:1" 30 (fresh_world [])
                    eq_refl eq_refl eq_refl)).
    reflexivity.
  - apply (proj2 (setTTL_missing_key_rejects_bare (J := small_JSON) cacher
                    localhost_config "user:1" 30
                    (fresh_world [None; Some "ERR wrong type"])
                    eq_refl eq_refl eq_refl)).
    reflexivity.
Defined.

Lemma setTTL_hit_resolves_before_expire_witness :
  scheduled 2 (world_with "cacher:user:1" "12" [None; None; Some "ERR"])
  = Some "ERR" /\
  fst (setTTL (J := small_JSON) cacher "user:1" 30
         (world_with "cacher:user:1" "12" [None; None; Some "ERR"]))
  = Resolved (JNum 12).
Proof.
  split; [reflexivity|].
  apply (proj1 (setTTL_hit_resolves_before_expire (J := small_JSON) cacher
                  localhost_config "user:1" "12" 15 30
                  (world_with "cacher:user:1" "12" [None; None; Some "ERR"])
                  eq_refl eq_refl ltac:(discriminate) eq_refl eq_refl)).
Defined.

Lemma operations_address_prefixed_key_witness :
  cachePrefix (setCachePrefix "myAppName" cacher) = Some "myAppName" /\
  addresses "myAppName:user:1" (setCachePrefix "myAppName" cacher)
    (fresh_world [])
    (snd (getData (J := small_JSON) (setCachePrefix "myAppName" cacher)
            "user:1" (fresh_world []))).
Proof.
  split; [reflexivity|].
  apply (operations_address_prefixed_key (J := small_JSON)
           (setCachePrefix "myAppName" cacher) "myAppName" "user:1"
           JNull 15 (fresh_world []) eq_refl).
Defined.

Lemma getDataWithFallback_hit_witness :
  getDataWithFallback (J := small_JSON) cacher "user:1" 30 seven
    (world_with "cacher:user:1" "12" [])
  = (Resolved (JNum 12),
     snd (getData (J := small_JSON) cacher "user:1"
            (world_with "cacher:user:1" "12" []))).
Proof.
  apply (getDataWithFallback_hit (J := small_JSON) cacher "user:1" 30 seven
           (world_with "cacher:user:1" "12" []) (JNum 12)).
  - apply injective_projections; reflexivity.
  - reflexivity.
Defined.

Lemma getDataWithFallback_store_error_witness :
  getDataWithFallback (J := small_JSON) cacher "user:1" 30 seven
    (fresh_world [Some "ECONNREFUSED"])
  = (Rejected (JError "ECONNREFUSED"),
     snd (getData (J := small_JSON) cacher "user:1"
            (fresh_world [Some "ECONNREFUSED"]))).
Proof.
  apply (getDataWithFallback_store_error (J := small_JSON) cacher "user:1" 30
           seven (fresh_world [Some "ECONNREFUSED"])
           (JError "ECONNREFUSED")).
  apply injective_projections; reflexivity.
Defined.

Lemma getDataWithFallback_miss_follows_write_witness :
  fst (getDataWithFallback (J := small_JSON) cacher "user:1" 30 seven
         (fresh_world []))
  = Resolved (JNum 7) /\
  fst (getDataWithFallback (J := small_JSON) cacher "user:1" 30 seven
         (fresh_world [None; None; None; Some "READONLY"]))
  = Rejected (JError "READONLY").
Proof.
  split.
  - apply (proj1 (getDataWithFallback_miss_follows_write (J := small_JSON)
                    cacher "user:1" 30 seven (fresh_world []) JNull
                    (snd (getData (J := small_JSON) cacher "user:1"
                            (fresh_world [])))
                    (JNum 7)
                    ltac:(apply injective_projections; reflexivity)
                    eq_refl eq_refl) JUndefined).
    reflexivity.
  - apply (proj2 (getDataWithFallback_miss_follows_write (J := small_JSON)
                    cacher "user:1" 30 seven
                    (fresh_world [None; None; None; Some "READONLY"]) JNull
                    (snd (getData (J := small_JSON) cacher "user:1"
                            (fresh_world [None; None; None; Some "READONLY"])))
                    (JNum 7)
                    ltac:(apply injective_projections; reflexivity)
                    eq_refl eq_refl) (JError "READONLY")).
    reflexivity.
Defined.

(** C1, as the spec has it, fails: the key is absent, the producer resolves
    with 7, the SETEX is refused, and [getDataWithFallback] rejects with
    the server's error instead of resolving with 7. *)
Lemma getDataWithFallback_write_failure_surfaces :
  ~ (forall (J : JSON) (this : Cacher) (key : string) (seconds : Z)
            (fallback : producer) (w : world) (v r : value),
       fst (getData this key w) = Resolved v ->
       nullish v = true ->
       fst (fallback (store (snd (getData this key w)))) = Resolved r ->
       fst (getDataWithFallback this key seconds fallback w) = Resolved r).
Proof.
  intros claim.
  specialize (claim small_JSON cacher "user:1" 30 seven
                (fresh_world [None; None; None; Some "READONLY"])
                JNull (JNum 7) eq_refl eq_refl eq_refl).
  vm_compute in claim. discriminate claim.
Qed.

(** [deleteData] resolves on a healthy server and its connection 0 is
    still live afterwards, where [getData] has closed its own. *)
Lemma deleteData_run_healthy :
  fst (deleteData cacher "user:1" (fresh_world [])) = Resolved JUndefined /\
  elements (live (snd (deleteData cacher "user:1" (fresh_world []))))
  = [0%nat] /\
  elements (live (snd (getData (J := small_JSON) cacher "user:1"
                         (fresh_world []))))
  = [].
Proof. repeat split; vm_compute; reflexivity. Qed.

(** * Further properties of the operations *)

Section Composition.
Context {J : JSON}.

Implicit Types (this : Cacher) (key : string) (w : world).

(** ** Running the helpers *)

Lemma scheduled_served n cfg cmd s closed w :
  scheduled n (served cfg cmd s closed w) = scheduled (S (S n)) w.
Proof.
  unfold scheduled. cbn [served faults].
  destruct (faults w) as [|a [|b l]]; destruct n; reflexivity.
Qed.

Lemma scheduled_connected n cfg w :
  scheduled n (connected cfg w) = scheduled (S n) w.
Proof.
  unfold scheduled. cbn [connected faults].
  destruct (faults w) as [|a l]; destruct n; reflexivity.
Qed.

Lemma call_run (fallback : producer) w :
  call fallback w
  = (fst (fallback (store w)), produced (snd (fallback (store w))) w).
Proof.
  unfold call, bind, log, get_store, put_store, ret. cbn [store].
  destruct (fallback (store w)) as [p s']. reflexivity.
Qed.

Lemma setExpire_run (id : conn) (label : string) (seconds : Z)
    (p : promise value) w :
  setExpire id label seconds p w =
    match scheduled 0 w with
    | Some msg =>
        (reject (JError msg) p,
         World (store w) (live w ∖ {[ id ]}) (next_conn w) (tl (faults w))
               (End id :: Command id (EXPIRE label seconds) :: trace w))
    | None =>
        (resolve (JNum (match store w !! label with
                        | Some _ => 1
                        | None => 0
                        end)) p,
         World (expired label seconds (store w)) (live w ∖ {[ id ]})
               (next_conn w) (tl (faults w))
               (End id :: Command id (EXPIRE label seconds) :: trace w))
    end.
Proof.
  rewrite scheduled_0.
  unfold setExpire, client_expire, send, bind, log, next_fault, get_store,
    put_store, closeDB, client_end, bind, ret, expired.
  cbn [faults store live trace next_conn].
  destruct (hd None (faults w)); [reflexivity|].
  cbn [store]. destruct (store w !! label) as [[text ttl0]|]; reflexivity.
Qed.

(** ** Writing and reading back *)

(** X1: after a [setData] that the server accepted, a [getData] of the same key
    on the same instance resolves with the value that was stored, for any
    value that [JSON.parse] reads back from its [JSON.stringify] text;
    [setData] itself resolves with no payload. *)
Theorem setData_then_getData this cfg key data seconds w :
  config this = Some cfg ->
  JSON_parse (JSON_stringify data) = Some data ->
  scheduled 0 w = None -> scheduled 1 w = None ->
  scheduled 2 w = None -> scheduled 3 w = None ->
  fst (setData this key data seconds w) = Resolved JUndefined /\
  fst (getData this key (snd (setData this key data seconds w)))
  = Resolved data.
Proof.
  intros Hcfg Hrt H0 H1 H2 H3.
  rewrite (setData_run _ _ _ _ _ _ Hcfg), H0, H1. cbn zeta.
  split; [reflexivity|]. cbn [snd].
  rewrite (getData_run _ _ _ _ Hcfg), !scheduled_served, H2, H3.
  cbn [fst served store]. rewrite lookup_insert_eq. cbn.
  unfold safeJSONParse. cbn. rewrite Hrt. reflexivity.
Qed.


(** X3: for a key whose stored text [JSON.parse] reads as [data], [getData]
    resolves with [data], leaves the key space as it was, and has ended its
    connection. *)
Theorem getData_hit_resolves_parsed this cfg key text ttl0 data w :
  config this = Some cfg ->
  store w !! hKeyLabel this key = Some (text, ttl0) ->
  JSON_parse text = Some data ->
  scheduled 0 w = None -> scheduled 1 w = None ->
  fst (getData this key w) = Resolved data /\
  store (snd (getData this key w)) = store w /\
  next_conn w ∉ live (snd (getData this key w)).
Proof.
  intros Hcfg Hkey Hparse H0 H1.
  rewrite (getData_run _ _ _ _ Hcfg), H0, H1, Hkey. cbn [fst snd].
  split; [|split; [reflexivity | apply ended_not_live]].
  unfold safeJSONParse. cbn. rewrite Hparse. reflexivity.
Qed.

(** ** Deleting *)

(** X4: [deleteData] resolves with no payload whether or not the key was
    there, and a [getData] of the same key right after it resolves with
    [null]. *)
Theorem deleteData_then_getData this cfg key w :
  config this = Some cfg ->
  JSON_parse "null" = Some JNull ->
  scheduled 0 w = None -> scheduled 1 w = None ->
  scheduled 2 w = None -> scheduled 3 w = None ->
  fst (deleteData this key w) = Resolved JUndefined /\
  fst (getData this key (snd (deleteData this key w))) = Resolved JNull.
Proof.
  intros Hcfg Hnull H0 H1 H2 H3.
  rewrite (deleteData_run _ _ _ _ Hcfg), H0, H1. cbn zeta.
  split; [reflexivity|]. cbn [snd].
  rewrite (getData_run _ _ _ _ Hcfg), !scheduled_served, H2, H3.
  cbn [fst served store]. rewrite lookup_delete_eq. cbn.
  unfold safeJSONParse. cbn. rewrite Hnull. reflexivity.
Qed.

(** X22: once the database is selected, [deleteData] resolves with no payload
    and removes the prefixed key when the server accepts the DEL, and
    rejects with the server's error, leaving the key space unchanged, when
    the DEL is refused. *)
Theorem deleteData_key_space this cfg key w :
  config this = Some cfg -> scheduled 0 w = None ->
  let w' := snd (deleteData this key w) in
  (scheduled 1 w = None ->
   fst (deleteData this key w) = Resolved JUndefined /\
   store w' = delete (hKeyLabel this key) (store w)) /\
  (forall msg, scheduled 1 w = Some msg ->
   fst (deleteData this key w) = Rejected (JError msg) /\
   store w' = store w).
Proof.
  intros Hcfg H0 w'. unfold w'.
  rewrite (deleteData_run _ _ _ _ Hcfg), H0. cbn zeta. split.
  - intros ->. split; reflexivity.
  - intros msg ->. split; reflexivity.
Qed.

(** ** When the database cannot be selected, or was never configured *)

(** X5: when the SELECT is refused, [getData] and [setData] reject with the
    server's error, while the promises of [setTTL] and [deleteData] are
    never settled (they have no rejection handler on [openDB()]).  In all
    four cases no keyed command is sent, the key space is unchanged and
    the connection that was created stays live. *)
Theorem select_error_outcomes this cfg key data seconds w msg :
  config this = Some cfg -> scheduled 0 w = Some msg ->
  (getData this key w = (Rejected (JError msg), connected cfg w) /\
   setData this key data seconds w = (Rejected (JError msg), connected cfg w) /\
   setTTL this key seconds w = (Pending, connected cfg w) /\
   deleteData this key w = (Pending, connected cfg w)) /\
  store (connected cfg w) = store w /\
  next_conn w ∈ live (connected cfg w) /\
  keys_sent (trace (connected cfg w)) = keys_sent (trace w).
Proof.
  intros Hcfg H0.
  rewrite (getData_run _ _ _ _ Hcfg), (setData_run _ _ _ _ _ _ Hcfg),
    (setTTL_run _ _ _ _ _ Hcfg), (deleteData_run _ _ _ _ Hcfg), H0.
  repeat split. apply created_live.
Qed.

(** X6: on an instance that was never initialised every operation rejects
    with the TypeError of reading [this.config.port], and nothing else
    happens: no connection is created, no command is sent, the producer of
    [getDataWithFallback] is not called. *)
Theorem operations_before_init this key data seconds (fallback : producer) w :
  config this = None ->
  let e := TypeError "'port' of undefined" in
  getData this key w = (Rejected e, w) /\
  setData this key data seconds w = (Rejected e, w) /\
  setTTL this key seconds w = (Rejected e, w) /\
  deleteData this key w = (Rejected e, w) /\
  getDataWithFallback this key seconds fallback w = (Rejected e, w).
Proof.
  intros Hcfg e.
  unfold getDataWithFallback, getData, setData, setTTL, deleteData, bind.
  rewrite (openDB_uninitialised _ _ Hcfg). repeat split.
Qed.

(** ** Keys do not interfere *)

Lemma append_inj_r (p a b : string) : p +:+ a = p +:+ b -> a = b.
Proof.
  induction p as [|c p IH]; cbn; [tauto|]. intros [= Heq]. exact (IH Heq).
Qed.

Lemma hKeyLabel_inj this key key' :
  hKeyLabel this key = hKeyLabel this key' -> key = key'.
Proof.
  unfold hKeyLabel. intros Heq.
  apply append_inj_r in Heq. apply append_inj_r in Heq. exact Heq.
Qed.

Lemma expired_other (label label' : string) (seconds : Z)
    (s : gmap string (string * Z)) :
  label <> label' -> expired label seconds s !! label' = s !! label'.
Proof.
  intros Hne. unfold expired. destruct (s !! label) as [[text ttl0]|];
    [|reflexivity].
  destruct (seconds <=? 0);
    [apply lookup_delete_ne | apply lookup_insert_ne]; exact Hne.
Qed.

(** X7: on one instance two different logical keys name two different
    entries: [setData], [setTTL] and [deleteData] on [key] leave the entry
    of any other key [key'] as it was. *)
Theorem other_keys_untouched this key key' data seconds w :
  key <> key' ->
  let label' := hKeyLabel this key' in
  store (snd (setData this key data seconds w)) !! label' = store w !! label' /\
  store (snd (setTTL this key seconds w)) !! label' = store w !! label' /\
  store (snd (deleteData this key w)) !! label' = store w !! label'.
Proof.
  intros Hne label'.
  assert (Hl : hKeyLabel this key <> label').
  { intros Heq. apply Hne. exact (hKeyLabel_inj _ _ _ Heq). }
  destruct (config this) as [cfg|] eqn:Hcfg.
  - rewrite (setData_run _ _ _ _ _ _ Hcfg), (setTTL_run _ _ _ _ _ Hcfg),
      (deleteData_run _ _ _ _ Hcfg).
    destruct (scheduled 0 w) as [m0|]; [repeat split|]. cbn zeta.
    destruct (scheduled 1 w) as [m1|]; [repeat split|].
    split; [|split].
    + cbn. apply lookup_insert_ne. exact Hl.
    + destruct (truthy _); [|reflexivity].
      rewrite setExpire_run. destruct (scheduled 0 _); [reflexivity|].
      cbn. apply expired_other. exact Hl.
    + cbn. apply lookup_delete_ne. exact Hl.
  - destruct (uninitialised_rejects this key data seconds w Hcfg)
      as (_ & -> & -> & ->).
    repeat split.
Qed.

(** ** Connections *)

Lemma live_created_other (id n : conn) (l : gset conn) :
  id <> n -> id ∈ {[ n ]} ∪ l <-> id ∈ l.
Proof.
  intros Hne. rewrite elem_of_union, elem_of_singleton. tauto.
Qed.

Lemma live_ended_other (id n : conn) (l : gset conn) :
  id <> n -> id ∈ ({[ n ]} ∪ l) ∖ {[ n ]} <-> id ∈ l.
Proof.
  intros Hne. rewrite elem_of_difference, elem_of_union, elem_of_singleton.
  tauto.
Qed.

(** X8: each of [getData], [setData], [setTTL] and [deleteData] on an
    initialised instance creates exactly one connection, and neither ends
    nor creates any other. *)
Theorem operations_use_one_connection this cfg key data seconds w :
  config this = Some cfg ->
  one_connection w (snd (getData this key w)) /\
  one_connection w (snd (setData this key data seconds w)) /\
  one_connection w (snd (setTTL this key seconds w)) /\
  one_connection w (snd (deleteData this key w)).
Proof.
  intros Hcfg.
  rewrite (getData_run _ _ _ _ Hcfg), (setData_run _ _ _ _ _ _ Hcfg),
    (setTTL_run _ _ _ _ _ Hcfg), (deleteData_run _ _ _ _ Hcfg).
  unfold one_connection.
  destruct (scheduled 0 w) as [m0|].
  { repeat split; intros Hin; eapply live_created_other; eauto. }
  cbn zeta. destruct (scheduled 1 w) as [m1|].
  { repeat split; intros Hin;
      first [ eapply live_ended_other; now eauto
            | eapply live_created_other; now eauto ]. }
  split; [|split; [|split]].
  - split; [reflexivity|]. intros id Hid. apply live_ended_other. exact Hid.
  - split; [reflexivity|]. intros id Hid. apply live_ended_other. exact Hid.
  - destruct (truthy _).
    + rewrite setExpire_run. destruct (scheduled 0 _);
        (split; [reflexivity|]; intros id Hid; apply live_ended_other;
         exact Hid).
    + split; [reflexivity|]. intros id Hid. apply live_ended_other. exact Hid.
  - split; [reflexivity|]. intros id Hid. apply live_created_other. exact Hid.
Qed.

(** X9: [init] keeps the caller's url and port and takes the database index
    from the caller, or 1 when the caller gives none; [setCachePrefix]
    leaves the configuration alone; and every operation starts by
    connecting to the configured port and url and selecting the configured
    index. *)
Theorem operations_open_configured_db this cfg key data seconds w :
  config this = Some cfg ->
  (forall o c, config (init o c)
     = Some (Config (opt_url o) (opt_port o) (default 1 (opt_db o)))) /\
  (forall name c, config (setCachePrefix name c) = config c) /\
  opens_with (port cfg) (url cfg) (db cfg) w (snd (getData this key w)) /\
  opens_with (port cfg) (url cfg) (db cfg) w
    (snd (setData this key data seconds w)) /\
  opens_with (port cfg) (url cfg) (db cfg) w (snd (setTTL this key seconds w)) /\
  opens_with (port cfg) (url cfg) (db cfg) w (snd (deleteData this key w)).
Proof.
  intros Hcfg. split; [reflexivity|]. split; [reflexivity|].
  rewrite (getData_run _ _ _ _ Hcfg), (setData_run _ _ _ _ _ _ Hcfg),
    (setTTL_run _ _ _ _ _ Hcfg), (deleteData_run _ _ _ _ Hcfg).
  unfold opens_with.
  destruct (scheduled 0 w) as [m0|].
  { repeat split; exists []; reflexivity. }
  cbn zeta. destruct (scheduled 1 w) as [m1|].
  { split; [|split; [|split]].
    - exists [End (next_conn w);
              Command (next_conn w) (GET (hKeyLabel this key))].
      reflexivity.
    - exists [End (next_conn w);
              Command (next_conn w)
                (SETEX (hKeyLabel this key) seconds (JSON_stringify data))].
      reflexivity.
    - exists [Command (next_conn w) (GET (hKeyLabel this key))]. reflexivity.
    - exists [Command (next_conn w) (DEL (hKeyLabel this key))]. reflexivity. }
  split; [|split; [|split]].
  - exists [End (next_conn w); Command (next_conn w) (GET (hKeyLabel this key))].
    reflexivity.
  - exists [End (next_conn w);
            Command (next_conn w)
              (SETEX (hKeyLabel this key) seconds (JSON_stringify data))].
    reflexivity.
  - destruct (truthy _).
    + rewrite setExpire_run.
      exists [End (next_conn w);
              Command (next_conn w) (EXPIRE (hKeyLabel this key) seconds);
              Command (next_conn w) (GET (hKeyLabel this key))].
      destruct (scheduled 0 _); reflexivity.
    + exists [End (next_conn w);
              Command (next_conn w) (GET (hKeyLabel this key))].
      reflexivity.
  - exists [Command (next_conn w) (DEL (hKeyLabel this key))]. reflexivity.
Qed.

(** ** setTTL and setExpire *)

Lemma nth_tl (n : nat) (l : list (option string)) :
  nth n (tl l) None = nth (S n) l None.
Proof. destruct l; destruct n; reflexivity. Qed.

(** X10: once the database is selected, [setTTL] ends its connection when the
    GET is answered (key found or not, EXPIRE accepted or not), and leaves
    it live when the GET is refused, in which case it rejects with the
    server's error. *)
Theorem setTTL_connection this cfg key seconds w :
  config this = Some cfg -> scheduled 0 w = None ->
  (scheduled 1 w = None ->
   next_conn w ∉ live (snd (setTTL this key seconds w))) /\
  (forall msg, scheduled 1 w = Some msg ->
   fst (setTTL this key seconds w) = Rejected (JError msg) /\
   next_conn w ∈ live (snd (setTTL this key seconds w))).
Proof.
  intros Hcfg H0. rewrite (setTTL_run _ _ _ _ _ Hcfg), H0. cbn zeta. split.
  - intros ->. destruct (truthy _); [|apply ended_not_live].
    rewrite setExpire_run, scheduled_served.
    destruct (scheduled 2 w); apply ended_not_live.
  - intros msg ->. split; [reflexivity | apply created_live].
Qed.

(** X11: on a key that holds a text, [setTTL] never changes the text: a
    refused EXPIRE leaves the key space unchanged, an accepted one with a
    positive duration only replaces the duration, and an accepted one with
    a duration that is not positive removes the key. *)
Theorem setTTL_key_space this cfg key text ttl0 seconds w :
  config this = Some cfg ->
  store w !! hKeyLabel this key = Some (text, ttl0) ->
  text <> EmptyString ->
  scheduled 0 w = None -> scheduled 1 w = None ->
  let w' := snd (setTTL this key seconds w) in
  (forall msg, scheduled 2 w = Some msg -> store w' = store w) /\
  (scheduled 2 w = None -> 0 < seconds ->
   store w' = <[ hKeyLabel this key := (text, seconds) ]> (store w)) /\
  (scheduled 2 w = None -> seconds <= 0 ->
   store w' = delete (hKeyLabel this key) (store w)).
Proof.
  intros Hcfg Hkey Htext H0 H1 w'. unfold w'.
  rewrite (setTTL_run _ _ _ _ _ Hcfg), H0, H1, Hkey. cbn zeta.
  destruct text as [|a text']; [congruence|]. cbn [fmap option_fmap option_map fst truthy].
  rewrite setExpire_run, scheduled_served.
  split; [|split].
  - intros msg ->. reflexivity.
  - intros -> Hpos. cbn. unfold expired. rewrite Hkey.
    destruct (Z.leb_spec seconds 0); [lia | reflexivity].
  - intros -> Hle. cbn. unfold expired. rewrite Hkey.
    destruct (Z.leb_spec seconds 0); [reflexivity | lia].
Qed.

(** X12: [setTTL] with a duration that is not positive resolves with the
    value that was stored, and a [getData] of the same key right after it
    resolves with [null]. *)
Theorem setTTL_zero_then_getData this cfg key text ttl0 seconds w :
  config this = Some cfg ->
  JSON_parse "null" = Some JNull ->
  store w !! hKeyLabel this key = Some (text, ttl0) ->
  text <> EmptyString ->
  seconds <= 0 ->
  scheduled 0 w = None -> scheduled 1 w = None -> scheduled 2 w = None ->
  scheduled 3 w = None -> scheduled 4 w = None ->
  fst (setTTL this key seconds w) = Resolved (safeJSONParse (Some text)) /\
  fst (getData this key (snd (setTTL this key seconds w))) = Resolved JNull.
Proof.
  intros Hcfg Hnull Hkey Htext Hle H0 H1 H2 H3 H4.
  rewrite (setTTL_run _ _ _ _ _ Hcfg), H0, H1, Hkey. cbn zeta.
  destruct text as [|a text']; [congruence|]. cbn [fmap option_fmap option_map fst truthy].
  rewrite setExpire_run, scheduled_served, H2. cbn [fst snd].
  split; [reflexivity|].
  rewrite (getData_run _ _ _ _ Hcfg). unfold scheduled in *.
  cbn [faults served store]. rewrite !nth_tl, H3, H4. cbn [fst].
  unfold expired. rewrite Hkey.
  destruct (Z.leb_spec seconds 0); [|lia].
  rewrite lookup_delete_eq. cbn. unfold safeJSONParse. cbn. rewrite Hnull.
  reflexivity.
Qed.

(** X13: [setExpire] on a pending promise resolves it with the server's
    integer reply (1 when the key exists, 0 otherwise) or rejects it with
    the server's error, in which case the key space is unchanged; in every
    case it ends the connection it was given. *)
Theorem setExpire_settles_and_closes (id : conn) (label : string)
    (seconds : Z) w :
  (id ∉ live (snd (setExpire id label seconds Pending w))) /\
  (scheduled 0 w = None ->
   fst (setExpire id label seconds Pending w)
   = Resolved (JNum (match store w !! label with Some _ => 1 | None => 0 end))) /\
  (forall msg, scheduled 0 w = Some msg ->
   setExpire id label seconds Pending w
   = (Rejected (JError msg),
      World (store w) (live w ∖ {[ id ]}) (next_conn w) (tl (faults w))
            (End id :: Command id (EXPIRE label seconds) :: trace w))).
Proof.
  rewrite setExpire_run. split; [|split].
  - destruct (scheduled 0 w); cbn; intros [_ Hid]%elem_of_difference;
      apply Hid, elem_of_singleton; reflexivity.
  - intros ->. reflexivity.
  - intros msg ->. reflexivity.
Qed.

(** ** getDataWithFallback *)

(** What [getDataWithFallback] does once [getData] has resolved with an
    absent value in [w1]. *)
Lemma getDataWithFallback_miss_run this key seconds (fallback : producer)
    w v w1 :
  getData this key w = (Resolved v, w1) ->
  nullish v = true ->
  getDataWithFallback this key seconds fallback w =
    let w2 := produced (snd (fallback (store w1))) w1 in
    match fst (fallback (store w1)) with
    | Resolved r =>
        (match fst (setData this key r seconds w2) with
         | Resolved _ => Resolved r
         | Rejected e => Rejected e
         | Pending => Pending
         end,
         snd (setData this key r seconds w2))
    | Rejected e => (Rejected e, w2)
    | Pending => (Pending, w2)
    end.
Proof.
  intros Hget Hv. unfold getDataWithFallback, bind.
  rewrite Hget, Hv. cbn [negb]. rewrite call_run. cbn zeta.
  destruct (fst (fallback (store w1))) as [| r | e]; [reflexivity | | reflexivity].
  destruct (setData this key r seconds _) as [[| u | e] w3]; reflexivity.
Qed.

(** X14: on a miss (the stored text is absent, or parses to [null] or
    [undefined]) with a producer that resolves with [r] and a server that
    accepts every command, [getDataWithFallback] resolves with [r], calls
    the producer once, writes the JSON text of [r] with the given duration
    under the prefixed key, and a following [getData] resolves with [r]. *)
Theorem getDataWithFallback_fills_cache this cfg key seconds
    (fallback : producer) w r s' :
  config this = Some cfg ->
  JSON_parse (JSON_stringify r) = Some r ->
  nullish (safeJSONParse (fst <$> store w !! hKeyLabel this key)) = true ->
  fallback (store w) = (Resolved r, s') ->
  scheduled 0 w = None -> scheduled 1 w = None -> scheduled 2 w = None ->
  scheduled 3 w = None -> scheduled 4 w = None -> scheduled 5 w = None ->
  let w' := snd (getDataWithFallback this key seconds fallback w) in
  fst (getDataWithFallback this key seconds fallback w) = Resolved r /\
  store w' = <[ hKeyLabel this key := (JSON_stringify r, seconds) ]> s' /\
  fallback_calls (trace w') = S (fallback_calls (trace w)) /\
  fst (getData this key w') = Resolved r.
Proof.
  intros Hcfg Hrt Hmiss Hfb H0 H1 H2 H3 H4 H5 w'. unfold w'.
  assert (Hget : getData this key w
                 = (Resolved (safeJSONParse
                                (fst <$> store w !! hKeyLabel this key)),
                    served cfg (GET (hKeyLabel this key)) (store w) true w)).
  { rewrite (getData_run _ _ _ _ Hcfg), H0, H1. reflexivity. }
  rewrite (getDataWithFallback_miss_run _ _ _ _ _ _ _ Hget Hmiss).
  cbn [served store]. rewrite Hfb. cbn [fst snd]. cbn zeta.
  rewrite (setData_run _ _ _ _ _ _ Hcfg).
  unfold scheduled in *. cbn [produced served faults].
  rewrite !nth_tl, H2, H3. cbn [fst snd].
  split; [reflexivity|]. split; [reflexivity|]. split; [reflexivity|].
  rewrite (getData_run _ _ _ _ Hcfg). unfold scheduled.
  cbn [produced served faults store]. rewrite !nth_tl, H4, H5. cbn [fst].
  rewrite lookup_insert_eq. cbn. unfold safeJSONParse. cbn. rewrite Hrt.
  reflexivity.
Qed.

(** X15: on a miss, when the producer rejects, [getDataWithFallback] rejects
    with the producer's reason, and when the producer's promise is never
    settled neither is the one of [getDataWithFallback]; in both cases
    nothing happens after the producer's call: no connection is opened and
    nothing is written. *)
Theorem getDataWithFallback_producer_failure this key seconds
    (fallback : producer) w v w1 :
  getData this key w = (Resolved v, w1) ->
  nullish v = true ->
  let w2 := produced (snd (fallback (store w1))) w1 in
  (forall e, fst (fallback (store w1)) = Rejected e ->
     getDataWithFallback this key seconds fallback w = (Rejected e, w2)) /\
  (fst (fallback (store w1)) = Pending ->
     getDataWithFallback this key seconds fallback w = (Pending, w2)).
Proof.
  intros Hget Hv w2. unfold w2.
  rewrite (getDataWithFallback_miss_run _ _ _ _ _ _ _ Hget Hv). cbn zeta.
  split.
  - intros e ->. reflexivity.
  - intros ->. reflexivity.
Qed.

Lemma fallback_calls_quiet (evs t : list event) :
  forallb quiet evs = true ->
  fallback_calls (evs ++ t) = fallback_calls t.
Proof.
  induction evs as [|e evs IH]; [reflexivity|]. cbn [forallb].
  intros [He Hevs]%andb_prop. destruct e; cbn in *;
    try discriminate; auto.
Qed.

Lemma getData_fallback_calls this key w :
  fallback_calls (trace (snd (getData this key w))) = fallback_calls (trace w).
Proof.
  destruct (getData_reads_only this key w) as (_ & evs & -> & Hq).
  apply fallback_calls_quiet. exact Hq.
Qed.

Lemma setData_fallback_calls this key data seconds w :
  fallback_calls (trace (snd (setData this key data seconds w)))
  = fallback_calls (trace w).
Proof.
  destruct (config this) as [cfg|] eqn:Hcfg.
  - rewrite (setData_run _ _ _ _ _ _ Hcfg).
    destruct (scheduled 0 w); [reflexivity|]. cbn zeta.
    destruct (scheduled 1 w); reflexivity.
  - destruct (uninitialised_rejects this key data seconds w Hcfg)
      as (_ & -> & _). reflexivity.
Qed.

(** X16: [getDataWithFallback] calls the producer exactly once when
    [getData] resolves with [null] or [undefined], and not at all in every
    other case. *)
Theorem producer_runs_once_on_miss this key seconds (fallback : producer) w :
  fallback_calls (trace (snd (getDataWithFallback this key seconds fallback w)))
  = (fallback_calls (trace w) +
     match fst (getData this key w) with
     | Resolved v => if nullish v then 1 else 0
     | _ => 0
     end)%nat.
Proof.
  pose proof (getData_fallback_calls this key w) as Hg.
  destruct (getData this key w) as [p w1] eqn:Hget. cbn [fst snd] in *.
  destruct p as [| v | e].
  - unfold getDataWithFallback, bind. rewrite Hget. cbn. lia.
  - destruct (nullish v) eqn:Hv.
    + rewrite (getDataWithFallback_miss_run _ _ _ _ _ _ _ Hget Hv). cbn zeta.
      destruct (fst (fallback (store w1))) as [| r | e]; cbn [snd];
        [cbn; lia | | cbn; lia].
      rewrite setData_fallback_calls. cbn. lia.
    + unfold getDataWithFallback, bind. rewrite Hget, Hv. cbn. lia.
  - unfold getDataWithFallback, bind. rewrite Hget. cbn. lia.
Qed.

End Composition.

(** * The earlier module *)

Section Earlier.
Context {J : JSON}.
Variable hash : string -> string.

Implicit Types (this : Cacher) (key : string) (w : world).

Lemma appcache_getData_run this cfg key w :
  config this = Some cfg ->
  AppCache.getData hash this key w =
    match scheduled 0 w with
    | Some msg => (Return (Rejected (JError msg)), connected cfg w)
    | None =>
        let cmd := GET (AppCache.hKeyLabel hash key) in
        match scheduled 1 w with
        | Some msg =>
            (Return (Rejected (JError msg)), served cfg cmd (store w) true w)
        | None =>
            match AppCache.parse
                    (fst <$> store w !! AppCache.hKeyLabel hash key) with
            | Return data =>
                (Return (Resolved data), served cfg cmd (store w) true w)
            | Throw e => (Throw e, served cfg cmd (store w) false w)
            end
        end
    end.
Proof.
  intros Hcfg. unfold AppCache.getData, bind.
  rewrite (openDB_initialised _ _ _ Hcfg).
  destruct (scheduled 0 w) as [msg|]; [reflexivity|].
  rewrite scheduled_1.
  unfold client_get, send, bind, log, next_fault, get_store, closeDB,
    client_end, bind, ret.
  cbn [faults connected store live trace next_conn].
  destruct (hd None (tl (faults w))); [reflexivity|].
  cbn zeta. destruct (AppCache.parse _); reflexivity.
Qed.

(** The reasons [getData] rejects with are error objects, never [null]. *)
Lemma appcache_getData_rejects_error this key w e w1 :
  AppCache.getData hash this key w = (Return (Rejected e), w1) ->
  AppCache.is_null e = false.
Proof.
  destruct (config this) as [cfg|] eqn:Hcfg.
  - rewrite (appcache_getData_run _ _ _ _ Hcfg).
    destruct (scheduled 0 w); [intros [= <- _]; reflexivity|]. cbn zeta.
    destruct (scheduled 1 w); [intros [= <- _]; reflexivity|].
    destruct (AppCache.parse _); discriminate.
  - unfold AppCache.getData, bind. rewrite (openDB_uninitialised _ _ Hcfg).
    intros [= <- _]. reflexivity.
Qed.

(** X17: in the earlier module [getDataWithFetchCallback] behaves exactly as
    [getData], in its result and in its effects: it calls [fetchCallback]
    only when [getData] rejects with [null], and [getData] rejects with
    error objects only, so the producer never runs. *)
Theorem appcache_fetchCallback_never_runs this key
    (seconds : option Z) (fetchCallback : producer) w :
  AppCache.getDataWithFetchCallback hash this key seconds fetchCallback w
  = AppCache.getData hash this key w.
Proof.
  unfold AppCache.getDataWithFetchCallback, bind.
  destruct (AppCache.getData hash this key w) as [[[| v | e] | e] w1] eqn:Hget;
    try reflexivity.
  rewrite (appcache_getData_rejects_error _ _ _ _ _ Hget). reflexivity.
Qed.

(** X18: in the earlier module a miss makes [getDataWithFetchCallback]
    resolve with [null]; [fetchCallback] is not called and the key space is
    left as it was. *)
Theorem appcache_miss_is_not_filled this cfg key
    (seconds : option Z) (fetchCallback : producer) w :
  config this = Some cfg ->
  JSON_parse "null" = Some JNull ->
  store w !! AppCache.hKeyLabel hash key = None ->
  scheduled 0 w = None -> scheduled 1 w = None ->
  let w' := snd (AppCache.getDataWithFetchCallback hash this key seconds
                   fetchCallback w) in
  fst (AppCache.getDataWithFetchCallback hash this key seconds fetchCallback w)
  = Return (Resolved JNull) /\
  store w' = store w /\
  fallback_calls (trace w') = fallback_calls (trace w).
Proof.
  intros Hcfg Hnull Hkey H0 H1 w'. unfold w'.
  unfold AppCache.getDataWithFetchCallback, bind.
  rewrite (appcache_getData_run _ _ _ _ Hcfg), H0, H1, Hkey. cbn zeta.
  unfold AppCache.parse. cbn. rewrite Hnull. repeat split.
Qed.

(** X19: in the earlier module a stored text that [JSON.parse] refuses makes
    the GET callback of [getData] throw the SyntaxError before the promise
    is settled and before [closeDB]: the promise stays pending and the
    connection stays live. *)
Theorem appcache_getData_malformed_throws this cfg key text ttl0 w :
  config this = Some cfg ->
  store w !! AppCache.hKeyLabel hash key = Some (text, ttl0) ->
  JSON_parse text = None ->
  scheduled 0 w = None -> scheduled 1 w = None ->
  fst (AppCache.getData hash this key w) = Throw AppCache.SyntaxError /\
  store (snd (AppCache.getData hash this key w)) = store w /\
  next_conn w ∈ live (snd (AppCache.getData hash this key w)).
Proof.
  intros Hcfg Hkey Hbad H0 H1.
  rewrite (appcache_getData_run _ _ _ _ Hcfg), H0, H1, Hkey. cbn zeta.
  unfold AppCache.parse. cbn. rewrite Hbad.
  split; [reflexivity|]. split; [reflexivity | apply created_live].
Qed.



(** X21: in the earlier module [refreshTTL] on a key that holds a text
    resolves with the parsed text and ends its connection, whatever the
    answer to the EXPIRE; when [JSON.parse] refuses the text, the GET
    callback throws, no EXPIRE is sent, the key space is unchanged and the
    connection stays live. *)
Theorem appcache_refreshTTL_hit this cfg key text ttl0 seconds w :
  config this = Some cfg ->
  store w !! AppCache.hKeyLabel hash key = Some (text, ttl0) ->
  text <> EmptyString ->
  scheduled 0 w = None -> scheduled 1 w = None ->
  let w' := snd (AppCache.refreshTTL hash this key seconds w) in
  (forall data, JSON_parse text = Some data ->
     fst (AppCache.refreshTTL hash this key seconds w)
     = Return (Resolved data) /\
     next_conn w ∉ live w') /\
  (JSON_parse text = None ->
     fst (AppCache.refreshTTL hash this key seconds w)
     = Throw AppCache.SyntaxError /\
     store w' = store w /\
     keys_sent (trace w')
     = AppCache.hKeyLabel hash key :: keys_sent (trace w) /\
     next_conn w ∈ live w').
Proof.
  intros Hcfg Hkey Htext H0 H1 w'. unfold w'.
  unfold AppCache.refreshTTL, bind.
  rewrite (openDB_initialised _ _ _ Hcfg), H0.
  rewrite scheduled_1 in H1.
  unfold client_get, send, bind, log, next_fault, get_store, ret.
  cbn [faults connected store live trace next_conn]. rewrite H1.
  cbn [store]. rewrite Hkey.
  destruct text as [|a text']; [congruence|].
  cbn [fmap option_fmap option_map fst truthy].
  unfold AppCache.parse. cbn [default from_option id]. split.
  - intros data ->. clear H0.
    rewrite setExpire_run. destruct (scheduled 0 _); cbn;
      (split; [reflexivity|]);
      intros [_ Hid]%elem_of_difference; apply Hid, elem_of_singleton;
      reflexivity.
  - intros ->. cbn. split; [reflexivity|]. split; [reflexivity|].
    split; [reflexivity | apply created_live].
Qed.

End Earlier.

(** * Concrete runs of the further properties *)

Lemma setData_then_getData_witness :
  fst (getData (J := small_JSON) cacher "user:1"
         (snd (setData (J := small_JSON) cacher "user:1" (JNum 12) 15
                 (fresh_world []))))
  = Resolved (JNum 12).
Proof.
  apply (proj2 (setData_then_getData (J := small_JSON) cacher
                  localhost_config "user:1" (JNum 12) 15 (fresh_world [])
                  eq_refl eq_refl eq_refl eq_refl eq_refl eq_refl)).
Defined.


Lemma getData_hit_resolves_parsed_witness :
  fst (getData (J := small_JSON) cacher "user:1"
         (world_with "cacher:user:1" "12" []))
  = Resolved (JNum 12).
Proof.
  apply (getData_hit_resolves_parsed (J := small_JSON) cacher
           localhost_config "user:1" "12" 15 (JNum 12)
           (world_with "cacher:user:1" "12" [])
           eq_refl eq_refl eq_refl eq_refl eq_refl).
Defined.

Lemma deleteData_then_getData_witness :
  fst (getData (J := small_JSON) cacher "user:1"
         (snd (deleteData cacher "user:1"
                 (world_with "cacher:user:1" "12" []))))
  = Resolved JNull.
Proof.
  apply (proj2 (deleteData_then_getData (J := small_JSON) cacher
                  localhost_config "user:1"
                  (world_with "cacher:user:1" "12" [])
                  eq_refl eq_refl eq_refl eq_refl eq_refl eq_refl)).
Defined.

Lemma deleteData_key_space_witness :
  store (snd (deleteData cacher "user:1"
                (world_with "cacher:user:1" "12" [])))
  = delete "cacher:user:1" {[ "cacher:user:1" := ("12", 15) ]} /\
  fst (deleteData cacher "user:1"
         (world_with "cacher:user:1" "12" [None; Some "READONLY"]))
  = Rejected (JError "READONLY").
Proof.
  split.
  - apply (proj1 (deleteData_key_space cacher localhost_config "user:1"
                    (world_with "cacher:user:1" "12" []) eq_refl eq_refl)
             eq_refl).
  - apply (proj2 (deleteData_key_space cacher localhost_config "user:1"
                    (world_with "cacher:user:1" "12" [None; Some "READONLY"])
                    eq_refl eq_refl) "READONLY" eq_refl).
Defined.

Lemma select_error_outcomes_witness :
  setTTL (J := small_JSON) cacher "user:1" 30
    (fresh_world [Some "ECONNREFUSED"])
  = (Pending, connected localhost_config (fresh_world [Some "ECONNREFUSED"])).
Proof.
  apply (select_error_outcomes (J := small_JSON) cacher localhost_config
           "user:1" JNull 30 (fresh_world [Some "ECONNREFUSED"])
           "ECONNREFUSED" eq_refl eq_refl).
Defined.

Lemma operations_before_init_witness :
  getDataWithFallback (J := small_JSON) new_Cacher "user:1" 30 seven
    (fresh_world [])
  = (Rejected (TypeError "'port' of undefined"), fresh_world []).
Proof.
  apply (operations_before_init (J := small_JSON) new_Cacher "user:1" JNull
           30 seven (fresh_world []) eq_refl).
Defined.

Lemma other_keys_untouched_witness :
  store (snd (deleteData cacher "user:1"
                (world_with "cacher:user:2" "12" [])))
    !! hKeyLabel cacher "user:2"
  = Some ("12", 15).
Proof.
  apply (other_keys_untouched (J := small_JSON) cacher "user:1" "user:2"
           JNull 30 (world_with "cacher:user:2" "12" [])
           ltac:(discriminate)).
Defined.

Lemma operations_use_one_connection_witness :
  one_connection (fresh_world [])
    (snd (getData (J := small_JSON) cacher "user:1" (fresh_world []))).
Proof.
  apply (operations_use_one_connection (J := small_JSON) cacher
           localhost_config "user:1" JNull 30 (fresh_world []) eq_refl).
Defined.

Lemma operations_open_configured_db_witness :
  opens_with (Some 6379) (Some "127.0.0.1") 1 (fresh_world [])
    (snd (getData (J := small_JSON)
            (init (Options (Some "127.0.0.1") (Some 6379) None) new_Cacher)
            "user:1" (fresh_world []))).
Proof.
  apply (operations_open_configured_db (J := small_JSON)
           (init (Options (Some "127.0.0.1") (Some 6379) None) new_Cacher)
           localhost_config "user:1" JNull 30 (fresh_world []) eq_refl).
Defined.

Lemma setTTL_connection_witness :
  (0%nat ∉ live (snd (setTTL (J := small_JSON) cacher "user:1" 30
                        (fresh_world [])))) /\
  0%nat ∈ live (snd (setTTL (J := small_JSON) cacher "user:1" 30
                       (fresh_world [None; Some "ERR"]))).
Proof.
  split.
  - apply (proj1 (setTTL_connection (J := small_JSON) cacher localhost_config
                    "user:1" 30 (fresh_world []) eq_refl eq_refl) eq_refl).
  - apply (proj2 (setTTL_connection (J := small_JSON) cacher localhost_config
                    "user:1" 30 (fresh_world [None; Some "ERR"])
                    eq_refl eq_refl) "ERR" eq_refl).
Defined.

Lemma setTTL_key_space_witness :
  store (snd (setTTL (J := small_JSON) cacher "user:1" 30
                (world_with "cacher:user:1" "12" [])))
  = <[ "cacher:user:1" := ("12", 30) ]> {[ "cacher:user:1" := ("12", 15) ]} /\
  store (snd (setTTL (J := small_JSON) cacher "user:1" 0
                (world_with "cacher:user:1" "12" [])))
  = delete "cacher:user:1" {[ "cacher:user:1" := ("12", 15) ]} /\
  store (snd (setTTL (J := small_JSON) cacher "user:1" 30
                (world_with "cacher:user:1" "12" [None; None; Some "ERR"])))
  = {[ "cacher:user:1" := ("12", 15) ]}.
Proof.
  split; [|split].
  - apply (proj1 (proj2 (setTTL_key_space (J := small_JSON) cacher
                           localhost_config "user:1" "12" 15 30
                           (world_with "cacher:user:1" "12" [])
                           eq_refl eq_refl ltac:(discriminate)
                           eq_refl eq_refl)) eq_refl eq_refl).
  - apply (proj2 (proj2 (setTTL_key_space (J := small_JSON) cacher
                           localhost_config "user:1" "12" 15 0
                           (world_with "cacher:user:1" "12" [])
                           eq_refl eq_refl ltac:(discriminate)
                           eq_refl eq_refl)) eq_refl ltac:(discriminate)).
  - apply (proj1 (setTTL_key_space (J := small_JSON) cacher
                    localhost_config "user:1" "12" 15 30
                    (world_with "cacher:user:1" "12" [None; None; Some "ERR"])
                    eq_refl eq_refl ltac:(discriminate) eq_refl eq_refl)
             "ERR" eq_refl).
Defined.

Lemma setTTL_zero_then_getData_witness :
  fst (getData (J := small_JSON) cacher "user:1"
         (snd (setTTL (J := small_JSON) cacher "user:1" 0
                 (world_with "cacher:user:1" "12" []))))
  = Resolved JNull.
Proof.
  apply (proj2 (setTTL_zero_then_getData (J := small_JSON) cacher
                  localhost_config "user:1" "12" 15 0
                  (world_with "cacher:user:1" "12" [])
                  eq_refl eq_refl eq_refl ltac:(discriminate)
                  ltac:(discriminate)
                  eq_refl eq_refl eq_refl eq_refl eq_refl)).
Defined.

Lemma setExpire_settles_and_closes_witness :
  fst (setExpire 0%nat "cacher:user:1" 30 Pending
         (world_with "cacher:user:1" "12" []))
  = Resolved (JNum 1) /\
  fst (setExpire 0%nat "cacher:user:1" 30 Pending
         (world_with "cacher:user:1" "12" [Some "ERR"]))
  = Rejected (JError "ERR").
Proof.
  split.
  - apply (proj1 (proj2 (setExpire_settles_and_closes 0%nat "cacher:user:1"
                           30 (world_with "cacher:user:1" "12" [])))
             eq_refl).
  - apply (f_equal fst
             (proj2 (proj2 (setExpire_settles_and_closes 0%nat
                              "cacher:user:1" 30
                              (world_with "cacher:user:1" "12" [Some "ERR"])))
                "ERR" eq_refl)).
Defined.

Lemma getDataWithFallback_fills_cache_witness :
  fst (getData (J := small_JSON) cacher "user:1"
         (snd (getDataWithFallback (J := small_JSON) cacher "user:1" 30 seven
                 (fresh_world []))))
  = Resolved (JNum 7).
Proof.
  apply (getDataWithFallback_fills_cache (J := small_JSON) cacher
           localhost_config "user:1" 30 seven (fresh_world []) (JNum 7) ∅
           eq_refl eq_refl eq_refl eq_refl
           eq_refl eq_refl eq_refl eq_refl eq_refl eq_refl).
Defined.

(** A producer that rejects, and one whose promise is never settled. *)
Lemma getDataWithFallback_producer_failure_witness :
  fst (getDataWithFallback (J := small_JSON) cacher "user:1" 30
         (fun s => (Rejected (JError "upstream is down"), s))
         (fresh_world []))
  = Rejected (JError "upstream is down") /\
  fst (getDataWithFallback (J := small_JSON) cacher "user:1" 30
         (fun s => (Pending, s)) (fresh_world []))
  = Pending.
Proof.
  split.
  - apply (f_equal fst
             (proj1 (getDataWithFallback_producer_failure (J := small_JSON)
                       cacher "user:1" 30
                       (fun s => (Rejected (JError "upstream is down"), s))
                       (fresh_world []) JNull
                       (snd (getData (J := small_JSON) cacher "user:1"
                               (fresh_world [])))
                       ltac:(apply injective_projections; reflexivity)
                       eq_refl)
                (JError "upstream is down") eq_refl)).
  - apply (f_equal fst
             (proj2 (getDataWithFallback_producer_failure (J := small_JSON)
                       cacher "user:1" 30 (fun s => (Pending, s))
                       (fresh_world []) JNull
                       (snd (getData (J := small_JSON) cacher "user:1"
                               (fresh_world [])))
                       ltac:(apply injective_projections; reflexivity)
                       eq_refl)
                eq_refl)).
Defined.

Lemma appcache_miss_is_not_filled_witness :
  fst (AppCache.getDataWithFetchCallback (J := small_JSON) plain_digest
         (AppCache.init localhost new_Cacher) "user:1" (Some 30) seven
         (fresh_world []))
  = Return (Resolved JNull).
Proof.
  apply (appcache_miss_is_not_filled (J := small_JSON) plain_digest
           (AppCache.init localhost new_Cacher) localhost_config "user:1"
           (Some 30) seven (fresh_world [])
           eq_refl eq_refl eq_refl eq_refl eq_refl).
Defined.

Lemma appcache_getData_malformed_throws_witness :
  fst (AppCache.getData (J := small_JSON) plain_digest
         (AppCache.init localhost new_Cacher) "user:1"
         (world_with "appcache:user:1" "{oops" []))
  = Throw AppCache.SyntaxError.
Proof.
  apply (appcache_getData_malformed_throws (J := small_JSON) plain_digest
           (AppCache.init localhost new_Cacher) localhost_config "user:1"
           "{oops" 15 (world_with "appcache:user:1" "{oops" [])
           eq_refl eq_refl eq_refl eq_refl eq_refl).
Defined.


Lemma appcache_refreshTTL_hit_witness :
  fst (AppCache.refreshTTL (J := small_JSON) plain_digest
         (AppCache.init localhost new_Cacher) "user:1" 30
         (world_with "appcache:user:1" "12" [None; None; Some "ERR"]))
  = Return (Resolved (JNum 12)) /\
  fst (AppCache.refreshTTL (J := small_JSON) plain_digest
         (AppCache.init localhost new_Cacher) "user:1" 30
         (world_with "appcache:user:1" "{oops" []))
  = Throw AppCache.SyntaxError.
Proof.
  split.
  - apply (proj1 (appcache_refreshTTL_hit (J := small_JSON) plain_digest
                    (AppCache.init localhost new_Cacher) localhost_config
                    "user:1" "12" 15 30
                    (world_with "appcache:user:1" "12"
                       [None; None; Some "ERR"])
                    eq_refl eq_refl ltac:(discriminate) eq_refl eq_refl)
             (JNum 12) eq_refl).
  - apply (proj2 (appcache_refreshTTL_hit (J := small_JSON) plain_digest
                    (AppCache.init localhost new_Cacher) localhost_config
                    "user:1" "{oops" 15 30
                    (world_with "appcache:user:1" "{oops" [])
                    eq_refl eq_refl ltac:(discriminate) eq_refl eq_refl)
             eq_refl).
Defined.
